(** * RustProject (createlib.py): a shallow embedding and its properties

    The class [RustProject] drives the [cargo] toolchain through
    [subprocess.run], writes one source file and removes the project
    directory with [shutil.rmtree].  The toolchain and the filesystem are
    outside the program: they are an injected environment [Env] over an
    arbitrary type of worlds.  Every method is a computation in a small
    monad that threads the instance and the world, may raise a Python
    exception, and records each external call it makes.

    The paths follow [posixpath.join]; a file holds the text handed to
    [write] (the encoding of text mode is outside the model).  The
    docstrings of [write_code] and [cleanup] are dedented in the source;
    the embedding follows the statements of the method bodies. *)

From Stdlib Require Import String Ascii List ZArith Bool Lia.
Import ListNotations.
Local Open Scope string_scope.
Local Open Scope list_scope.

(** ** Python values the methods handle *)

(** The exceptions that matter to the [except] clauses of the source:
    the two that are caught somewhere, and any other one. *)
Inductive exn : Type :=
| FileNotFoundError
| CalledProcessError (returncode : Z) (cmd : list string)
| OtherError (name : string).

Definition is_FileNotFoundError (e : exn) : bool :=
  match e with FileNotFoundError => true | _ => false end.

Definition is_CalledProcessError (e : exn) : bool :=
  match e with CalledProcessError _ _ => true | _ => false end.

(** What launching a command can come to. *)
Inductive proc_result : Type :=
| Exited (returncode : Z)
| NoSuchFile
| LaunchError (name : string).

(** The fields of an instance, as [__init__] sets them. *)
Record RustProject : Type := mkRustProject {
  project_name : string;
  project_type : string;
  project_path : option string;
  dependencies : list string
}.

Definition set_path (s : RustProject) (p : option string) : RustProject :=
  mkRustProject (project_name s) (project_type s) p (dependencies s).

(** [RustProject.__init__]: [project_type] defaults to ["lib"], a missing
    or empty dependency list becomes the empty list. *)
Definition __init__ (name : string) (ty : option string)
  (deps : option (list string)) : RustProject :=
  {| project_name := name;
     project_type := match ty with Some t => t | None => "lib" end;
     project_path := None;
     dependencies := match deps with
                     | Some (d :: ds) => d :: ds
                     | _ => []
                     end |}.

(** ** The outside world *)

(** The collaborators of the class: [subprocess.run]'s launcher, the
    builtin [open(path, "w")] with one [write], [shutil.rmtree], two
    observations of the filesystem, and [str] on an exception. *)
Record Env (World : Type) : Type := mkEnv {
  spawn : list string -> option string -> World -> proc_result * World;
  write_text : string -> string -> World -> option exn * World;
  rmtree : string -> World -> option exn * World;
  read_text : World -> string -> option string;
  path_exists : World -> string -> bool;
  py_str : exn -> string
}.

Arguments spawn {World}.
Arguments write_text {World}.
Arguments rmtree {World}.
Arguments read_text {World}.
Arguments path_exists {World}.
Arguments py_str {World}.

(** What a filesystem is expected to do when a call succeeds. *)
Record FsLaws {World : Type} (env : Env World) : Prop := mkFsLaws {
  write_then_read : forall path data w w',
    write_text env path data w = (None, w') ->
    read_text env w' path = Some data;
  rmtree_removes : forall path w w',
    rmtree env path w = (None, w') ->
    path_exists env w' path = false
}.

(** Every external call a method makes, with what came back. *)
Inductive event : Type :=
| EvRun (argv : list string) (cwd : option string) (r : proc_result)
| EvPrint (line : string)
| EvWrite (path : string) (data : string) (r : option exn)
| EvRmtree (path : string) (r : option exn).

(** A process was really started. *)
Definition launched (ev : event) : bool :=
  match ev with EvRun _ _ (Exited _) => true | _ => false end.

(** A call of [subprocess.run], whatever came of it. *)
Definition is_run (ev : event) : bool :=
  match ev with EvRun _ _ _ => true | _ => false end.

(** A call that touches the filesystem. *)
Definition is_fs (ev : event) : bool :=
  match ev with EvWrite _ _ _ | EvRmtree _ _ => true | _ => false end.

Definition is_print (ev : event) : bool :=
  match ev with EvPrint _ => true | _ => false end.

(** ** [posixpath.join] *)

Definition startswith_sep (b : string) : bool :=
  match b with
  | String c _ => Ascii.eqb c "/"
  | EmptyString => false
  end.

Fixpoint endswith_sep (a : string) : bool :=
  match a with
  | EmptyString => false
  | String c EmptyString => Ascii.eqb c "/"
  | String _ rest => endswith_sep rest
  end.

Definition join_step (path b : string) : string :=
  if startswith_sep b then b
  else if (String.eqb path EmptyString || endswith_sep path)%bool
       then (path ++ b)%string
       else (path ++ "/" ++ b)%string.

Definition os_path_join (a : string) (p : list string) : string :=
  fold_left join_step p a.

(** ** Names and messages the methods compute *)

(** [project_type_flag] of [create_project]. *)
Definition project_type_flag (s : RustProject) : string :=
  if String.eqb (project_type s) "lib" then "--lib" else "--bin".

(** [src_file_name] of [write_code]. *)
Definition src_file_name (s : RustProject) : string :=
  if String.eqb (project_type s) "lib" then "lib.rs" else "main.rs".

(** [src_file_path] of [write_code]. *)
Definition src_file_path (s : RustProject) (path : string) : string :=
  os_path_join path ["src"; src_file_name s].

Definition not_installed_msg : string :=
  "Error: Cargo is not installed. Please install Rust and Cargo.".

Definition not_created_msg : string :=
  "Error: Rust project not created.".

Definition is_set (p : option string) : bool :=
  match p with Some _ => true | None => false end.

(** The four command lines. *)
Definition version_argv : list string := ["cargo"; "--version"].

Definition new_argv (s : RustProject) : list string :=
  ["cargo"; "new"; project_type_flag s; project_name s].

Definition add_argv (dep : string) : list string := ["cargo"; "add"; dep].

Definition run_argv : list string := ["cargo"; "run"].

(** [sub] occurs in [s]. *)
Definition Contains (sub s : string) : Prop :=
  exists pre post : string, s = (pre ++ sub ++ post)%string.

(** ** The monad of the methods *)

Inductive outcome (A : Type) : Type :=
| Return (a : A)
| Raise (e : exn).

Arguments Return {A}.
Arguments Raise {A}.

Module Py.

Section Monad.

Context {World : Type}.

Record store : Type := mkStore {
  self : RustProject;
  world : World
}.

Definition M (A : Type) : Type := store -> outcome A * store * list event.

Definition ret {A : Type} (a : A) : M A :=
  fun st => (Return a, st, []).

Definition bind {A B : Type} (m : M A) (k : A -> M B) : M B :=
  fun st =>
    match m st with
    | (Return a, st1, evs1) =>
        let '(r, st2, evs2) := k a st1 in (r, st2, evs1 ++ evs2)
    | (Raise e, st1, evs1) => (Raise e, st1, evs1)
    end.

(** [try: body except E as e: handler e] where [catches] decides
    membership in [E]. *)
Definition try_except {A : Type} (body : M A) (catches : exn -> bool)
  (handler : exn -> M A) : M A :=
  fun st =>
    match body st with
    | (Return a, st1, evs1) => (Return a, st1, evs1)
    | (Raise e, st1, evs1) =>
        if catches e
        then let '(r, st2, evs2) := handler e st1 in (r, st2, evs1 ++ evs2)
        else (Raise e, st1, evs1)
    end.

Definition get_self : M RustProject :=
  fun st => (Return (self st), st, []).

Definition set_project_path (p : option string) : M unit :=
  fun st => (Return tt, mkStore (set_path (self st) p) (world st), []).

Definition print (line : string) : M unit :=
  fun st => (Return tt, st, [EvPrint line]).

End Monad.

End Py.

Arguments Py.store : clear implicits.
Arguments Py.M : clear implicits.

Declare Scope py_scope.
Delimit Scope py_scope with py.
Notation "x <- c1 ;; c2" := (Py.bind c1 (fun x => c2))
  (at level 100, c1 at next level, right associativity) : py_scope.
Notation "c1 ;; c2" := (Py.bind c1 (fun _ => c2))
  (at level 100, right associativity) : py_scope.

Import Py.

(** What a call came to: its result, the store it left, the external
    calls it made. *)
Definition result_of {A W : Type} (x : outcome A * Py.store W * list event)
  : outcome A := fst (fst x).

Definition store_of {A W : Type} (x : outcome A * Py.store W * list event)
  : Py.store W := snd (fst x).

Definition events_of {A W : Type} (x : outcome A * Py.store W * list event)
  : list event := snd x.

(** [evs] happened before what [x] records. *)
Definition after {A W : Type} (evs : list event)
  (x : outcome A * Py.store W * list event)
  : outcome A * Py.store W * list event :=
  (result_of x, store_of x, evs ++ events_of x).

(** ** The methods of [RustProject] *)

Module RustProjectM.

Section Methods.

Context {World : Type}.
Variable env : Env World.

Local Open Scope py_scope.

Local Abbreviation M := (Py.M World).

(** A filesystem call returns, or raises what the filesystem reported. *)
Definition raise_if (r : option exn) : outcome unit :=
  match r with
  | None => Return tt
  | Some e => Raise e
  end.

(** [subprocess.run(argv, check=True, cwd=cwd)]: a launch that cannot find
    its file raises [FileNotFoundError], an exit status other than zero
    raises [CalledProcessError]. *)
Definition check_true (argv : list string) (r : proc_result) : outcome unit :=
  match r with
  | Exited rc =>
      if Z.eqb rc 0 then Return tt else Raise (CalledProcessError rc argv)
  | NoSuchFile => Raise FileNotFoundError
  | LaunchError name => Raise (OtherError name)
  end.

Definition subprocess_run (argv : list string) (cwd : option string) : M unit :=
  fun st =>
    let '(r, w) := spawn env argv cwd (world st) in
    (check_true argv r, mkStore (self st) w, [EvRun argv cwd r]).

(** [with open(path, "w") as f: f.write(data)] *)
Definition open_w_write (path data : string) : M unit :=
  fun st =>
    let '(r, w) := write_text env path data (world st) in
    (raise_if r, mkStore (self st) w, [EvWrite path data r]).

(** [shutil.rmtree(path)] *)
Definition shutil_rmtree (path : string) : M unit :=
  fun st =>
    let '(r, w) := rmtree env path (world st) in
    (raise_if r, mkStore (self st) w, [EvRmtree path r]).

(** [for x in l: body x] *)
Fixpoint for_each {A : Type} (l : list A) (body : A -> M unit) : M unit :=
  match l with
  | [] => ret tt
  | x :: rest => body x ;; for_each rest body
  end.

Definition _check_cargo_installed : M bool :=
  r <- try_except
         (subprocess_run ["cargo"; "--version"] None ;; ret None)
         is_FileNotFoundError
         (fun _ => print not_installed_msg ;; ret (Some false)) ;;
  match r with
  | Some b => ret b
  | None => ret true
  end.

Definition _add_dependencies : M unit :=
  s <- get_self ;;
  match dependencies s with
  | [] => ret tt
  | _ :: _ =>
      try_except
        (for_each (dependencies s) (fun dependency =>
           s1 <- get_self ;;
           subprocess_run ["cargo"; "add"; dependency] (project_path s1)))
        is_CalledProcessError
        (fun e => print ("Error adding dependency: " ++ py_str env e)%string)
  end.

Definition create_project : M unit :=
  installed <- _check_cargo_installed ;;
  if negb installed then ret tt
  else
    s <- get_self ;;
    try_except
      (subprocess_run ["cargo"; "new"; project_type_flag s; project_name s] None ;;
       set_project_path (Some (project_name s)) ;;
       _add_dependencies)
      is_CalledProcessError
      (fun e =>
         print ("Error creating new Rust " ++ project_type s
                ++ " project: " ++ py_str env e)%string).

(** The part of [create_project] under its [try]. *)
Definition create_body (s : RustProject) : M unit :=
  subprocess_run (new_argv s) None ;;
  set_project_path (Some (project_name s)) ;;
  _add_dependencies.

Definition write_code (rust_code : string) : M unit :=
  s <- get_self ;;
  match project_path s with
  | None => print not_created_msg
  | Some path => open_w_write (src_file_path s path) rust_code
  end.

Definition build_and_run : M unit :=
  s <- get_self ;;
  match project_path s with
  | None => print not_created_msg
  | Some path =>
      installed <- _check_cargo_installed ;;
      if negb installed then ret tt
      else
        try_except
          (subprocess_run ["cargo"; "run"] (Some path))
          is_CalledProcessError
          (fun e => print ("Error running Rust code: " ++ py_str env e)%string)
  end.

Definition cleanup : M unit :=
  s <- get_self ;;
  match project_path s with
  | Some path =>
      shutil_rmtree path ;;
      set_project_path None
  | None => ret tt
  end.

(** *** Sequences of calls on one instance *)

Inductive op : Type :=
| OpCheckCargo
| OpCreateProject
| OpAddDependencies
| OpWriteCode (rust_code : string)
| OpBuildAndRun
| OpCleanup.

Definition run_op (o : op) : M unit :=
  match o with
  | OpCheckCargo => _check_cargo_installed ;; ret tt
  | OpCreateProject => create_project
  | OpAddDependencies => _add_dependencies
  | OpWriteCode rust_code => write_code rust_code
  | OpBuildAndRun => build_and_run
  | OpCleanup => cleanup
  end.

(** The initialization subcommand ran and exited with status zero. *)
Definition is_init_ok (ev : event) : bool :=
  match ev with
  | EvRun (prog :: sub :: _) _ (Exited rc) =>
      (String.eqb prog "cargo" && String.eqb sub "new" && Z.eqb rc 0)%bool
  | _ => false
  end.

Definition init_succeeded (evs : list event) : bool :=
  existsb is_init_ok evs.

(** The three diagnostics that quote an exception. *)
Definition add_msg (e : exn) : string :=
  ("Error adding dependency: " ++ py_str env e)%string.

Definition create_msg (s : RustProject) (e : exn) : string :=
  ("Error creating new Rust " ++ project_type s ++ " project: "
     ++ py_str env e)%string.

Definition run_msg (e : exn) : string :=
  ("Error running Rust code: " ++ py_str env e)%string.

(** The body of the loop of [_add_dependencies]. *)
Definition add_body (dependency : string) : M unit :=
  s1 <- get_self ;;
  subprocess_run ["cargo"; "add"; dependency] (project_path s1).

(** What [_check_cargo_installed] answers, by what the launch came to. *)
Definition check_answer (r : proc_result) : outcome bool :=
  match r with
  | NoSuchFile => Return false
  | Exited rc =>
      if Z.eqb rc 0 then Return true
      else Raise (CalledProcessError rc version_argv)
  | LaunchError name => Raise (OtherError name)
  end.

Definition check_events (r : proc_result) : list event :=
  EvRun version_argv None r
    :: match r with NoSuchFile => [EvPrint not_installed_msg] | _ => [] end.

(** The toolchain accepts every one of [deps] in turn, from [w] on. *)
Fixpoint all_added (cwd : option string) (deps : list string) (w : World)
  : option World :=
  match deps with
  | [] => Some w
  | d :: rest =>
      match spawn env ["cargo"; "add"; d] cwd w with
      | (Exited rc, w1) => if Z.eqb rc 0 then all_added cwd rest w1 else None
      | _ => None
      end
  end.

(** The record of an accepted [cargo add]. *)
Definition added (cwd : option string) (dep : string) : event :=
  EvRun ["cargo"; "add"; dep] cwd (Exited 0).

(** A [cargo add], whatever came of it. *)
Definition is_add (ev : event) : bool :=
  match ev with
  | EvRun (prog :: sub :: _) _ _ =>
      (String.eqb prog "cargo" && String.eqb sub "add")%bool
  | _ => false
  end.

(** The build-and-execute subcommand, whatever came of it. *)
Definition is_cargo_run (ev : event) : bool :=
  match ev with
  | EvRun (prog :: sub :: _) _ _ =>
      (String.eqb prog "cargo" && String.eqb sub "run")%bool
  | _ => false
  end.

Definition returned {A : Type} (r : outcome A) : bool :=
  match r with Return _ => true | Raise _ => false end.

(** The history the invariant speaks of: a creation whose initialization
    subcommand succeeded, with no completed cleanup since. *)
Definition created_step (o : op) (r : outcome unit) (evs : list event)
  (created : bool) : bool :=
  match o with
  | OpCreateProject => if init_succeeded evs then true else created
  | OpCleanup => if returned r then false else created
  | _ => created
  end.

(** A caller makes the calls one after the other; an exception of one
    call does not keep the caller from making the next. *)
Fixpoint run_ops (ops : list op) (st : store World) (created : bool)
  : store World * bool :=
  match ops with
  | [] => (st, created)
  | o :: rest =>
      let '(r, st1, evs) := run_op o st in
      run_ops rest st1 (created_step o r evs created)
  end.

End Methods.

End RustProjectM.

Import RustProjectM.

(** ** A simulated toolchain and filesystem

    A stand-in for [cargo] and the filesystem, on which the methods can be
    run: a world says whether [cargo] is on the search path, which
    directories and files exist, and which crates the registry knows. *)

Module Sim.

Record world : Type := mkWorld {
  cargo_on_path : bool;
  dirs : list string;
  files : list (string * string);
  registry : list string
}.

Definition mem (x : string) (l : list string) : bool :=
  existsb (String.eqb x) l.

Fixpoint lookup (path : string) (fs : list (string * string)) : option string :=
  match fs with
  | [] => None
  | (p, data) :: rest => if String.eqb path p then Some data else lookup path rest
  end.

(** [p] is [root] or lies below it. *)
Definition under (root p : string) : bool :=
  (String.eqb p root || String.prefix (root ++ "/")%string p)%bool.

Definition manifest (name : string) : string :=
  ("[package] name = " ++ name ++ " [dependencies]")%string.

Definition cargo_new (flag name : string) (w : world) : proc_result * world :=
  if mem name (dirs w) then (Exited 101, w)
  else
    let src := if String.eqb flag "--lib" then "lib.rs" else "main.rs" in
    (Exited 0,
     mkWorld (cargo_on_path w)
             (name :: (name ++ "/src")%string :: dirs w)
             (((name ++ "/Cargo.toml")%string, manifest name)
                :: ((name ++ "/src/" ++ src)%string, EmptyString)
                :: files w)
             (registry w)).

Definition cargo_add (dep : string) (cwd : option string) (w : world)
  : proc_result * world :=
  match cwd with
  | Some dir =>
      let toml := (dir ++ "/Cargo.toml")%string in
      match lookup toml (files w) with
      | Some text =>
          if mem dep (registry w)
          then (Exited 0,
                mkWorld (cargo_on_path w) (dirs w)
                        ((toml, (text ++ " " ++ dep)%string) :: files w)
                        (registry w))
          else (Exited 101, w)
      | None => (Exited 101, w)
      end
  | None => (Exited 101, w)
  end.

Definition sim_spawn (argv : list string) (cwd : option string) (w : world)
  : proc_result * world :=
  if negb (cargo_on_path w) then (NoSuchFile, w)
  else
    match argv with
    | ["cargo"; "--version"] => (Exited 0, w)
    | ["cargo"; "new"; flag; name] => cargo_new flag name w
    | ["cargo"; "add"; dep] => cargo_add dep cwd w
    | ["cargo"; "run"] =>
        match cwd with
        | Some dir =>
            match lookup (dir ++ "/src/main.rs")%string (files w) with
            | Some _ => (Exited 0, w)
            | None => (Exited 101, w)
            end
        | None => (Exited 101, w)
        end
    | _ => (Exited 1, w)
    end.

(** Writing needs a directory above the file. *)
Definition sim_write_text (path data : string) (w : world) : option exn * world :=
  if existsb (fun d => String.prefix (d ++ "/")%string path) (dirs w)
  then (None,
        mkWorld (cargo_on_path w) (dirs w) ((path, data) :: files w) (registry w))
  else (Some FileNotFoundError, w).

Definition sim_rmtree (path : string) (w : world) : option exn * world :=
  if mem path (dirs w)
  then (None,
        mkWorld (cargo_on_path w)
                (filter (fun d => negb (under path d)) (dirs w))
                (filter (fun f => negb (under path (fst f))) (files w))
                (registry w))
  else (Some FileNotFoundError, w).

Definition sim_read_text (w : world) (path : string) : option string :=
  lookup path (files w).

Definition sim_path_exists (w : world) (path : string) : bool :=
  (mem path (dirs w) || mem path (map fst (files w)))%bool.

Definition sim_str (e : exn) : string :=
  match e with
  | FileNotFoundError => "[Errno 2] No such file or directory"
  | CalledProcessError _ cmd =>
      ("Command '" ++ String.concat " " cmd
         ++ "' returned non-zero exit status.")%string
  | OtherError name => name
  end.

Definition sim_env : Env world :=
  mkEnv world sim_spawn sim_write_text sim_rmtree sim_read_text
        sim_path_exists sim_str.

(** A machine with [cargo] and a registry that knows two crates. *)
Definition fresh : world := mkWorld true [] [] ["serde"; "rand"].

(** The same machine without [cargo]. *)
Definition no_cargo : world := mkWorld false [] [] ["serde"; "rand"].

Definition start (obj : RustProject) (w : world) : Py.store world :=
  mkStore obj w.

End Sim.

(** ** A scripted toolchain on a filesystem that refuses

    A second stand-in, for the failures the first one cannot produce: the
    world is the list of the answers still to come, each launch takes the
    next one, and every write and removal is refused. *)

Module Script.

Definition world : Type := list proc_result.

Definition script_spawn (argv : list string) (cwd : option string) (w : world)
  : proc_result * world :=
  match w with
  | r :: rest => (r, rest)
  | [] => (NoSuchFile, [])
  end.

Definition refuse : exn := OtherError "PermissionError".

Definition script_env : Env world :=
  mkEnv world script_spawn
        (fun _ _ w => (Some refuse, w))
        (fun _ w => (Some refuse, w))
        (fun _ _ => None)
        (fun _ _ => true)
        Sim.sim_str.

End Script.

(** ** What a call ran, in order *)

(** The command lines handed to [subprocess.run], each with its working
    directory, in the order of the calls. *)
Fixpoint commands (evs : list event) : list (list string * option string) :=
  match evs with
  | [] => []
  | EvRun argv cwd _ :: rest => (argv, cwd) :: commands rest
  | _ :: rest => commands rest
  end.

Definition is_write (ev : event) : bool :=
  match ev with EvWrite _ _ _ => true | _ => false end.

Definition is_rmtree (ev : event) : bool :=
  match ev with EvRmtree _ _ => true | _ => false end.

(** The commands of [_add_dependencies], were every one accepted. *)
Definition add_plan (s : RustProject) : list (list string * option string) :=
  map (fun dep => (add_argv dep, project_path s)) (dependencies s).

(** The commands of [create_project], were every one accepted. *)
Definition create_plan (s : RustProject) : list (list string * option string) :=
  (version_argv, None)
    :: (new_argv s, None)
    :: add_plan (set_path s (Some (project_name s))).

(** The commands of [build_and_run], were every one accepted. *)
Definition run_plan (s : RustProject) : list (list string * option string) :=
  match project_path s with
  | Some path => [(version_argv, None); (run_argv, Some path)]
  | None => []
  end.

(** The arguments an instance was constructed with. *)
Definition same_given (a b : RustProject) : Prop :=
  project_name a = project_name b
  /\ project_type a = project_type b
  /\ dependencies a = dependencies b.

(** * Properties *)

(** ** Strings and paths *)

Lemma append_assoc (a b c : string) :
  ((a ++ b) ++ c = a ++ (b ++ c))%string.
Proof. induction a as [|ch a IH]; simpl; [reflexivity | now rewrite IH]. Qed.

Lemma append_empty_r (a : string) : (a ++ EmptyString)%string = a.
Proof. induction a as [|ch a IH]; simpl; [reflexivity | now rewrite IH]. Qed.

Lemma endswith_sep_app (a b : string) :
  b <> EmptyString -> endswith_sep (a ++ b) = endswith_sep b.
Proof.
  intros Hb. induction a as [|ch a IH]; simpl; [reflexivity|].
  rewrite IH. destruct (a ++ b)%string eqn:E; [|reflexivity].
  destruct a; simpl in E; [contradiction | discriminate].
Qed.

(** Below a project path that is not empty and does not end in a
    separator, the source file is [path/src/name]. *)
Lemma src_file_path_plain (s : RustProject) (path : string) :
  path <> EmptyString -> endswith_sep path = false ->
  src_file_path s path = (path ++ "/src/" ++ src_file_name s)%string.
Proof.
  intros Hne Hsep. unfold src_file_path, os_path_join, src_file_name. simpl.
  assert (Hj : join_step path "src" = (path ++ "/src")%string).
  { unfold join_step. simpl. rewrite Hsep.
    destruct (String.eqb_spec path EmptyString); [contradiction | reflexivity]. }
  rewrite Hj. unfold join_step.
  assert (He : endswith_sep (path ++ "/src") = false)
    by (rewrite endswith_sep_app; [reflexivity | discriminate]).
  rewrite He.
  assert (Hn : String.eqb (path ++ "/src") EmptyString = false).
  { destruct (String.eqb_spec (path ++ "/src")%string EmptyString) as [E|];
      [|reflexivity].
    destruct path; simpl in E; discriminate. }
  rewrite Hn. simpl.
  destruct (String.eqb (project_type s) "lib"); simpl;
    rewrite append_assoc; reflexivity.
Qed.

(** The two flags and the two file names, by kind. *)
Lemma project_type_flag_cases (s : RustProject) :
  (project_type s = "lib"%string -> project_type_flag s = "--lib"%string)
  /\ (project_type s <> "lib"%string -> project_type_flag s = "--bin"%string).
Proof.
  unfold project_type_flag.
  destruct (String.eqb_spec (project_type s) "lib"); split; intros; congruence.
Qed.

Lemma src_file_name_cases (s : RustProject) :
  (project_type s = "lib"%string -> src_file_name s = "lib.rs"%string)
  /\ (project_type s <> "lib"%string -> src_file_name s = "main.rs"%string).
Proof.
  unfold src_file_name.
  destruct (String.eqb_spec (project_type s) "lib"); split; intros; congruence.
Qed.

(** ** The methods, call by call *)

Section Facts.

Context {World : Type}.
Variable env : Env World.

Lemma subprocess_run_eq (argv : list string) (cwd : option string)
  (st : store World) (r : proc_result) (w : World) :
  spawn env argv cwd (world st) = (r, w) ->
  subprocess_run env argv cwd st
  = (check_true argv r, mkStore (self st) w, [EvRun argv cwd r]).
Proof. intros H. unfold subprocess_run. rewrite H. reflexivity. Qed.

Lemma check_cargo_eq (st : store World) (r : proc_result) (w : World) :
  spawn env version_argv None (world st) = (r, w) ->
  _check_cargo_installed env st
  = (check_answer r, mkStore (self st) w, check_events r).
Proof.
  intros H. unfold _check_cargo_installed, bind, try_except.
  fold version_argv. rewrite (subprocess_run_eq _ _ _ _ _ H).
  destruct r as [rc| |name]; simpl; [destruct (Z.eqb rc 0)|..]; reflexivity.
Qed.

(** *** The loop of [_add_dependencies] *)

Lemma after_nil {A : Type} (x : outcome A * store World * list event) :
  after [] x = x.
Proof. destruct x as [[r st] evs]. reflexivity. Qed.

Lemma store_eta (st : store World) : mkStore (self st) (world st) = st.
Proof. destruct st. reflexivity. Qed.

Lemma for_each_cons {A : Type} (x : A) (rest : list A) (body : A -> M World unit)
  (st : store World) :
  for_each (x :: rest) body st
  = match body x st with
    | (Return _, st1, evs1) => after evs1 (for_each rest body st1)
    | (Raise e, st1, evs1) => (Raise e, st1, evs1)
    end.
Proof.
  simpl. unfold bind. destruct (body x st) as [[[u|e] st1] evs1]; [|reflexivity].
  destruct (for_each rest body st1) as [[r2 st2] evs2]. reflexivity.
Qed.

Lemma add_body_eq (dep : string) (st : store World) (r : proc_result) (w : World) :
  spawn env (add_argv dep) (project_path (self st)) (world st) = (r, w) ->
  add_body env dep st
  = (check_true (add_argv dep) r, mkStore (self st) w,
     [EvRun (add_argv dep) (project_path (self st)) r]).
Proof.
  intros H. unfold add_body, bind, get_self. simpl.
  fold (add_argv dep). rewrite (subprocess_run_eq _ _ _ _ _ H). reflexivity.
Qed.

(** The entries the toolchain accepts are added in order, and the loop
    goes on with the rest. *)
Lemma loop_prefix (pre rest : list string) :
  forall (st : store World) (wk : World),
    all_added env (project_path (self st)) pre (world st) = Some wk ->
    for_each (pre ++ rest) (add_body env) st
    = after (map (added (project_path (self st))) pre)
            (for_each rest (add_body env) (mkStore (self st) wk)).
Proof.
  induction pre as [|d pre IH]; intros st wk H; simpl in H |- *.
  - injection H as <-. now rewrite after_nil, store_eta.
  - fold (add_argv d) in H.
    destruct (spawn env (add_argv d) (project_path (self st)) (world st))
      as [r w1] eqn:E.
    destruct r as [rc| |name]; try discriminate.
    destruct (Z.eqb_spec rc 0) as [->|]; try discriminate.
    unfold bind at 1. rewrite (add_body_eq _ _ _ _ E). simpl.
    specialize (IH (mkStore (self st) w1) wk H). simpl in IH. rewrite IH.
    reflexivity.
Qed.

Lemma loop_all (deps : list string) (st : store World) (w : World) :
  all_added env (project_path (self st)) deps (world st) = Some w ->
  for_each deps (add_body env) st
  = (Return tt, mkStore (self st) w, map (added (project_path (self st))) deps).
Proof.
  intros H. pose proof (loop_prefix deps [] st w H) as L.
  rewrite app_nil_r in L. rewrite L. unfold after. simpl.
  now rewrite app_nil_r.
Qed.

(** The loop stops at the first entry the toolchain does not accept. *)
Lemma loop_stops (d : string) (post : list string) (st : store World)
  (r : proc_result) (w : World) :
  spawn env (add_argv d) (project_path (self st)) (world st) = (r, w) ->
  r <> Exited 0 ->
  for_each (d :: post) (add_body env) st
  = (check_true (add_argv d) r, mkStore (self st) w,
     [EvRun (add_argv d) (project_path (self st)) r])
  /\ returned (check_true (add_argv d) r) = false.
Proof.
  intros H Hr. simpl. unfold bind at 1. rewrite (add_body_eq _ _ _ _ H).
  destruct r as [rc| |name]; simpl; try (split; reflexivity).
  destruct (Z.eqb_spec rc 0) as [->|]; [congruence|]. split; reflexivity.
Qed.

(** The loop leaves the instance alone and runs nothing but [cargo add]. *)
Lemma loop_frame (deps : list string) :
  forall st : store World,
    self (store_of (for_each deps (add_body env) st)) = self st
    /\ Forall (fun ev => is_add ev = true)
              (events_of (for_each deps (add_body env) st)).
Proof.
  induction deps as [|d deps IH]; intros st.
  - split; [reflexivity | constructor].
  - destruct (spawn env (add_argv d) (project_path (self st)) (world st))
      as [r w1] eqn:E.
    rewrite for_each_cons, (add_body_eq _ _ _ _ E).
    destruct (check_true (add_argv d) r) as [[]|e].
    + destruct (IH (mkStore (self st) w1)) as [Hs He].
      unfold after, store_of, events_of in *. simpl in *. split; [exact Hs|].
      constructor; [reflexivity | exact He].
    + unfold store_of, events_of. simpl. split; [reflexivity|].
      constructor; [reflexivity | constructor].
Qed.

(** *** [_add_dependencies] *)

Lemma bind_get_self {A : Type} (k : RustProject -> M World A) (st : store World) :
  bind get_self k st = k (self st) st.
Proof.
  unfold bind, get_self. destruct (k (self st) st) as [[r st2] evs2]. reflexivity.
Qed.

Lemma try_except_print (body : M World unit) (catches : exn -> bool)
  (msg : exn -> string) (st : store World) :
  try_except body catches (fun e => print (msg e)) st
  = match body st with
    | (Return a, st1, evs1) => (Return a, st1, evs1)
    | (Raise e, st1, evs1) =>
        if catches e then (Return tt, st1, evs1 ++ [EvPrint (msg e)])
        else (Raise e, st1, evs1)
    end.
Proof. reflexivity. Qed.

Lemma add_dependencies_eq (st : store World) :
  _add_dependencies env st
  = match dependencies (self st) with
    | [] => (Return tt, st, [])
    | _ :: _ =>
        try_except (for_each (dependencies (self st)) (add_body env))
                   is_CalledProcessError (fun e => print (add_msg env e)) st
    end.
Proof.
  unfold _add_dependencies. rewrite bind_get_self.
  destruct (dependencies (self st)); reflexivity.
Qed.

(** The method leaves the instance alone, makes no call but [cargo add]
    and [print], and lets no [CalledProcessError] out. *)
Lemma add_dependencies_frame (st : store World) :
  self (store_of (_add_dependencies env st)) = self st
  /\ Forall (fun ev => (is_add ev || is_print ev)%bool = true)
            (events_of (_add_dependencies env st))
  /\ (forall e, result_of (_add_dependencies env st) = Raise e ->
                is_CalledProcessError e = false).
Proof.
  rewrite add_dependencies_eq.
  destruct (dependencies (self st)) as [|d ds] eqn:Hd.
  - repeat split; [constructor | intros e H; discriminate H].
  - rewrite try_except_print.
    destruct (loop_frame (d :: ds) st) as [Hs He].
    destruct (for_each (d :: ds) (add_body env) st) as [[[u|e] st1] evs1];
      unfold store_of, events_of, result_of in *; simpl in *.
    + repeat split; [exact Hs | | intros e H; discriminate H].
      eapply Forall_impl; [|exact He]. intros ev H. simpl in H. now rewrite H.
    + assert (Hall : Forall (fun ev => (is_add ev || is_print ev)%bool = true) evs1).
      { eapply Forall_impl; [|exact He]. intros ev H. simpl in H. now rewrite H. }
      destruct (is_CalledProcessError e) eqn:Hc; simpl.
      * repeat split; [exact Hs | | intros e' H; discriminate H].
        apply Forall_app. split; [exact Hall|]. repeat constructor.
      * repeat split; [exact Hs | exact Hall |].
        intros e' H. injection H as <-. exact Hc.
Qed.

(** Every entry accepted: all are added, nothing is printed. *)
Lemma add_dependencies_all (st : store World) (w : World) :
  all_added env (project_path (self st)) (dependencies (self st)) (world st)
  = Some w ->
  _add_dependencies env st
  = (Return tt, mkStore (self st) w,
     map (added (project_path (self st))) (dependencies (self st))).
Proof.
  intros H. rewrite add_dependencies_eq.
  destruct (dependencies (self st)) as [|d ds] eqn:Hd.
  - simpl in H. injection H as <-. now rewrite store_eta.
  - rewrite try_except_print, (loop_all _ _ _ H). reflexivity.
Qed.

(** The first entry the toolchain refuses ends the method. *)
Lemma add_dependencies_stops (st : store World) (pre : list string) (d : string)
  (post : list string) (r : proc_result) (wk wk' : World) :
  dependencies (self st) = pre ++ d :: post ->
  all_added env (project_path (self st)) pre (world st) = Some wk ->
  spawn env (add_argv d) (project_path (self st)) wk = (r, wk') ->
  r <> Exited 0 ->
  _add_dependencies env st
  = (match r with
     | Exited _ => Return tt
     | NoSuchFile => Raise FileNotFoundError
     | LaunchError name => Raise (OtherError name)
     end,
     mkStore (self st) wk',
     map (added (project_path (self st))) pre
       ++ EvRun (add_argv d) (project_path (self st)) r
       :: match r with
          | Exited rc => [EvPrint (add_msg env (CalledProcessError rc (add_argv d)))]
          | _ => []
          end).
Proof.
  intros Hd Hpre Hsp Hr. rewrite add_dependencies_eq, Hd.
  destruct (pre ++ d :: post) as [|x xs] eqn:Hx;
    [destruct pre; discriminate Hx|]. rewrite <- Hx.
  rewrite try_except_print, (loop_prefix _ _ _ _ Hpre).
  destruct (loop_stops d post (mkStore (self st) wk) r wk' Hsp Hr) as [L _].
  rewrite L. unfold after, result_of, store_of, events_of. simpl.
  destruct r as [rc| |name]; simpl; try reflexivity.
  destruct (Z.eqb_spec rc 0) as [->|]; [congruence|]. simpl.
  rewrite <- app_assoc. reflexivity.
Qed.

(** *** [create_project] *)

Lemma bind_check_eq {A : Type} (k : bool -> M World A) (st : store World)
  (r : proc_result) (w : World) :
  spawn env version_argv None (world st) = (r, w) ->
  bind (_check_cargo_installed env) k st
  = match check_answer r with
    | Return b => after (check_events r) (k b (mkStore (self st) w))
    | Raise e => (Raise e, mkStore (self st) w, check_events r)
    end.
Proof.
  intros H. unfold bind. rewrite (check_cargo_eq _ _ _ H).
  destruct (check_answer r) as [b|e]; [|reflexivity].
  destruct (k b (mkStore (self st) w)) as [[r2 st2] evs2]. reflexivity.
Qed.

(** The toolchain is missing, or the probe itself failed: nothing more
    is run and the instance is as it was. *)
Lemma create_project_no_toolchain (st : store World) (r : proc_result) (w : World) :
  spawn env version_argv None (world st) = (r, w) ->
  r <> Exited 0 ->
  create_project env st
  = (match check_answer r with Return _ => Return tt | Raise e => Raise e end,
     mkStore (self st) w, check_events r).
Proof.
  intros H Hr. unfold create_project. rewrite (bind_check_eq _ _ _ _ H).
  destruct r as [rc| |name]; simpl; try reflexivity.
  destruct (Z.eqb_spec rc 0) as [->|]; [congruence | reflexivity].
Qed.

Lemma create_project_toolchain (st : store World) (w : World) :
  spawn env version_argv None (world st) = (Exited 0, w) ->
  create_project env st
  = after (check_events (Exited 0))
      (try_except (create_body env (self st)) is_CalledProcessError
         (fun e => print (create_msg env (self st) e))
         (mkStore (self st) w)).
Proof.
  intros H. unfold create_project. rewrite (bind_check_eq _ _ _ _ H).
  simpl. rewrite bind_get_self. reflexivity.
Qed.

Lemma create_body_eq (s : RustProject) (st : store World) (r : proc_result)
  (w : World) :
  spawn env (new_argv s) None (world st) = (r, w) ->
  create_body env s st
  = match check_true (new_argv s) r with
    | Return _ =>
        after [EvRun (new_argv s) None r]
          (_add_dependencies env
             (mkStore (set_path (self st) (Some (project_name s))) w))
    | Raise e => (Raise e, mkStore (self st) w, [EvRun (new_argv s) None r])
    end.
Proof.
  intros H. unfold create_body, bind at 1.
  rewrite (subprocess_run_eq _ _ _ _ _ H).
  destruct (check_true (new_argv s) r) as [u|e]; [|reflexivity].
  unfold bind, set_project_path. simpl.
  destruct (_add_dependencies env _) as [[r2 st2] evs2]. reflexivity.
Qed.

(** The initialization subcommand exits with a status other than zero. *)
Lemma create_project_init_failed (st : store World) (w1 w2 : World) (rc : Z) :
  spawn env version_argv None (world st) = (Exited 0, w1) ->
  spawn env (new_argv (self st)) None w1 = (Exited rc, w2) ->
  rc <> 0%Z ->
  create_project env st
  = (Return tt, mkStore (self st) w2,
     [EvRun version_argv None (Exited 0);
      EvRun (new_argv (self st)) None (Exited rc);
      EvPrint (create_msg env (self st)
                 (CalledProcessError rc (new_argv (self st))))]).
Proof.
  intros Hv Hn Hrc. rewrite (create_project_toolchain _ _ Hv), try_except_print.
  rewrite (create_body_eq (self st) (mkStore (self st) w1) _ _ Hn). simpl.
  destruct (Z.eqb_spec rc 0); [contradiction | reflexivity].
Qed.

(** The initialization subcommand could not be launched. *)
Lemma create_project_init_not_launched (st : store World) (w1 w2 : World)
  (r : proc_result) :
  spawn env version_argv None (world st) = (Exited 0, w1) ->
  spawn env (new_argv (self st)) None w1 = (r, w2) ->
  (forall rc, r <> Exited rc) ->
  create_project env st
  = (check_true (new_argv (self st)) r, mkStore (self st) w2,
     [EvRun version_argv None (Exited 0); EvRun (new_argv (self st)) None r]).
Proof.
  intros Hv Hn Hr. rewrite (create_project_toolchain _ _ Hv), try_except_print.
  rewrite (create_body_eq (self st) (mkStore (self st) w1) _ _ Hn). simpl.
  destruct r as [rc| |name]; [now elim (Hr rc) | reflexivity | reflexivity].
Qed.

(** The initialization subcommand succeeds: the path is recorded, then
    [_add_dependencies] runs, and what it comes to is what
    [create_project] comes to. *)
Lemma create_project_init_ok (st : store World) (w1 w2 : World) :
  spawn env version_argv None (world st) = (Exited 0, w1) ->
  spawn env (new_argv (self st)) None w1 = (Exited 0, w2) ->
  create_project env st
  = after [EvRun version_argv None (Exited 0);
           EvRun (new_argv (self st)) None (Exited 0)]
      (_add_dependencies env
         (mkStore (set_path (self st) (Some (project_name (self st)))) w2)).
Proof.
  intros Hv Hn. rewrite (create_project_toolchain _ _ Hv), try_except_print.
  rewrite (create_body_eq (self st) (mkStore (self st) w1) _ _ Hn). simpl.
  set (x := _add_dependencies env _).
  destruct (add_dependencies_frame
              (mkStore (set_path (self st) (Some (project_name (self st)))) w2))
    as (_ & _ & Hc). fold x in Hc.
  destruct x as [[[u|e] st2] evs2]; unfold after, result_of, store_of, events_of;
    simpl; [reflexivity|].
  rewrite (Hc e eq_refl). reflexivity.
Qed.

(** *** [write_code], [build_and_run], [cleanup] *)

Lemma write_code_unset (rust_code : string) (st : store World) :
  project_path (self st) = None ->
  write_code env rust_code st = (Return tt, st, [EvPrint not_created_msg]).
Proof.
  intros H. unfold write_code. rewrite bind_get_self, H. reflexivity.
Qed.

Lemma write_code_set (rust_code path : string) (st : store World)
  (r : option exn) (w : World) :
  project_path (self st) = Some path ->
  write_text env (src_file_path (self st) path) rust_code (world st) = (r, w) ->
  write_code env rust_code st
  = (raise_if r, mkStore (self st) w,
     [EvWrite (src_file_path (self st) path) rust_code r]).
Proof.
  intros H Hw. unfold write_code. rewrite bind_get_self, H.
  unfold open_w_write. rewrite Hw. reflexivity.
Qed.

Lemma build_and_run_unset (st : store World) :
  project_path (self st) = None ->
  build_and_run env st = (Return tt, st, [EvPrint not_created_msg]).
Proof.
  intros H. unfold build_and_run. rewrite bind_get_self, H. reflexivity.
Qed.

Lemma build_and_run_no_toolchain (path : string) (st : store World)
  (r : proc_result) (w : World) :
  project_path (self st) = Some path ->
  spawn env version_argv None (world st) = (r, w) ->
  r <> Exited 0 ->
  build_and_run env st
  = (match check_answer r with Return _ => Return tt | Raise e => Raise e end,
     mkStore (self st) w, check_events r).
Proof.
  intros H Hv Hr. unfold build_and_run. rewrite bind_get_self, H.
  rewrite (bind_check_eq _ _ _ _ Hv).
  destruct r as [rc| |name]; simpl; try reflexivity.
  destruct (Z.eqb_spec rc 0) as [->|]; [congruence | reflexivity].
Qed.

Lemma build_and_run_toolchain (path : string) (st : store World)
  (r : proc_result) (w1 w2 : World) :
  project_path (self st) = Some path ->
  spawn env version_argv None (world st) = (Exited 0, w1) ->
  spawn env run_argv (Some path) w1 = (r, w2) ->
  build_and_run env st
  = (match r with
     | Exited _ => Return tt
     | NoSuchFile => Raise FileNotFoundError
     | LaunchError name => Raise (OtherError name)
     end,
     mkStore (self st) w2,
     EvRun version_argv None (Exited 0)
       :: EvRun run_argv (Some path) r
       :: match r with
          | Exited rc =>
              if Z.eqb rc 0 then []
              else [EvPrint (run_msg env (CalledProcessError rc run_argv))]
          | _ => []
          end).
Proof.
  intros H Hv Hr. unfold build_and_run. rewrite bind_get_self, H.
  rewrite (bind_check_eq _ _ _ _ Hv). simpl.
  fold run_argv. rewrite try_except_print.
  rewrite (subprocess_run_eq run_argv (Some path) (mkStore (self st) w1) _ _ Hr).
  destruct r as [rc| |name]; simpl; try reflexivity.
  destruct (Z.eqb rc 0); reflexivity.
Qed.

Lemma cleanup_unset (st : store World) :
  project_path (self st) = None ->
  cleanup env st = (Return tt, st, []).
Proof.
  intros H. unfold cleanup. rewrite bind_get_self, H. reflexivity.
Qed.

Lemma cleanup_set (path : string) (st : store World) (r : option exn) (w : World) :
  project_path (self st) = Some path ->
  rmtree env path (world st) = (r, w) ->
  cleanup env st
  = (raise_if r,
     mkStore (match r with
              | None => set_path (self st) None
              | Some _ => self st
              end) w,
     [EvRmtree path r]).
Proof.
  intros H Hr. unfold cleanup. rewrite bind_get_self, H.
  unfold bind, shutil_rmtree. rewrite Hr.
  destruct r as [e|]; reflexivity.
Qed.

(** *** What each call does to [project_path] *)

Lemma no_init_among_adds (evs : list event) :
  Forall (fun ev => (is_add ev || is_print ev)%bool = true) evs ->
  init_succeeded evs = false.
Proof.
  induction 1 as [|ev evs Hev _ IH]; [reflexivity|].
  unfold init_succeeded in *. simpl. rewrite IH, orb_false_r.
  destruct ev as [argv cwd r|line|path data r|path r]; try reflexivity.
  destruct argv as [|prog [|sub rest]]; try reflexivity.
  destruct r as [rc| |name]; try reflexivity.
  simpl in Hev. rewrite orb_false_r in Hev.
  apply andb_true_iff in Hev as [_ Hsub]. apply String.eqb_eq in Hsub.
  subst sub. simpl. now rewrite andb_false_r.
Qed.

Lemma no_init_in_check (r : proc_result) : init_succeeded (check_events r) = false.
Proof. destruct r; reflexivity. Qed.

(** [create_project] records the path exactly when its initialization
    subcommand succeeded, and otherwise leaves the instance as it was. *)
Lemma create_project_self (st : store World) :
  self (store_of (create_project env st))
  = if init_succeeded (events_of (create_project env st))
    then set_path (self st) (Some (project_name (self st)))
    else self st.
Proof.
  destruct (spawn env version_argv None (world st)) as [r w1] eqn:Hv.
  assert (Hcase : r = Exited 0 \/ r <> Exited 0).
  { destruct r as [rc| |name]; try (right; discriminate).
    destruct (Z.eq_dec rc 0) as [->|]; [now left | right; congruence]. }
  destruct Hcase as [-> | Hr].
  - destruct (spawn env (new_argv (self st)) None w1) as [r2 w2] eqn:Hn.
    destruct r2 as [rc| |name].
    + destruct (Z.eq_dec rc 0) as [->|Hrc].
      * rewrite (create_project_init_ok _ _ _ Hv Hn).
        unfold after, store_of, events_of, result_of. simpl.
        destruct (add_dependencies_frame
          (mkStore (set_path (self st) (Some (project_name (self st)))) w2))
          as (Hs & _ & _).
        exact Hs.
      * rewrite (create_project_init_failed _ _ _ _ Hv Hn Hrc).
        unfold store_of, events_of, init_succeeded. simpl.
        destruct (Z.eqb_spec rc 0); [contradiction | reflexivity].
    + rewrite (create_project_init_not_launched _ _ _ _ Hv Hn);
        [reflexivity | discriminate].
    + rewrite (create_project_init_not_launched _ _ _ _ Hv Hn);
        [reflexivity | discriminate].
  - rewrite (create_project_no_toolchain _ _ _ Hv Hr).
    unfold store_of, events_of. cbn [fst snd]. now rewrite no_init_in_check.
Qed.

(** [cleanup] clears the path exactly when it had one and returns. *)
Lemma cleanup_self (st : store World) :
  self (store_of (cleanup env st))
  = if returned (result_of (cleanup env st))
    then set_path (self st) None
    else self st.
Proof.
  destruct (project_path (self st)) as [path|] eqn:Hp.
  - destruct (rmtree env path (world st)) as [r w] eqn:Hr.
    rewrite (cleanup_set _ _ _ _ Hp Hr). destruct r; reflexivity.
  - rewrite (cleanup_unset _ Hp). unfold store_of, result_of. simpl.
    destruct st as [[n t p d] w]. simpl in *. now subst p.
Qed.

Lemma check_cargo_self (st : store World) :
  self (store_of (_check_cargo_installed env st)) = self st.
Proof.
  destruct (spawn env version_argv None (world st)) as [r w] eqn:Hv.
  now rewrite (check_cargo_eq _ _ _ Hv).
Qed.

Lemma write_code_self (rust_code : string) (st : store World) :
  self (store_of (write_code env rust_code st)) = self st.
Proof.
  destruct (project_path (self st)) as [path|] eqn:Hp.
  - destruct (write_text env (src_file_path (self st) path) rust_code (world st))
      as [r w] eqn:Hw.
    now rewrite (write_code_set _ _ _ _ _ Hp Hw).
  - now rewrite (write_code_unset _ _ Hp).
Qed.

Lemma build_and_run_self (st : store World) :
  self (store_of (build_and_run env st)) = self st.
Proof.
  destruct (project_path (self st)) as [path|] eqn:Hp;
    [|now rewrite (build_and_run_unset _ Hp)].
  destruct (spawn env version_argv None (world st)) as [r w1] eqn:Hv.
  assert (Hcase : r = Exited 0 \/ r <> Exited 0).
  { destruct r as [rc| |name]; try (right; discriminate).
    destruct (Z.eq_dec rc 0) as [->|]; [now left | right; congruence]. }
  destruct Hcase as [-> | Hr].
  - destruct (spawn env run_argv (Some path) w1) as [r2 w2] eqn:Hn.
    now rewrite (build_and_run_toolchain _ _ _ _ _ Hp Hv Hn).
  - now rewrite (build_and_run_no_toolchain _ _ _ _ Hp Hv Hr).
Qed.

(** One call, and the path after it. *)
Lemma run_op_self (o : op) (st : store World) :
  self (store_of (run_op env o st))
  = match o with
    | OpCreateProject =>
        if init_succeeded (events_of (run_op env o st))
        then set_path (self st) (Some (project_name (self st)))
        else self st
    | OpCleanup =>
        if returned (result_of (run_op env o st))
        then set_path (self st) None
        else self st
    | _ => self st
    end.
Proof.
  destruct o; simpl.
  - unfold bind. pose proof (check_cargo_self st) as H.
    destruct (_check_cargo_installed env st) as [[[b|e] st1] evs1]; exact H.
  - apply create_project_self.
  - apply add_dependencies_frame.
  - apply write_code_self.
  - apply build_and_run_self.
  - apply cleanup_self.
Qed.

(** *** Sequences of calls *)

Lemma created_step_sound (o : op) (st : store World) (created : bool) :
  is_set (project_path (self st)) = created ->
  is_set (project_path (self (store_of (run_op env o st))))
  = created_step o (result_of (run_op env o st))
                 (events_of (run_op env o st)) created.
Proof.
  intros H. rewrite run_op_self. destruct o; simpl; try exact H.
  - destruct (init_succeeded (events_of (create_project env st)));
      [reflexivity | exact H].
  - destruct (returned (result_of (cleanup env st))); [reflexivity | exact H].
Qed.

Lemma run_ops_sound (ops : list op) :
  forall (st : store World) (created : bool),
    is_set (project_path (self st)) = created ->
    is_set (project_path (self (fst (run_ops env ops st created))))
    = snd (run_ops env ops st created).
Proof.
  induction ops as [|o ops IH]; intros st created H; simpl; [exact H|].
  pose proof (created_step_sound o st created H) as Hs.
  destruct (run_op env o st) as [[r st1] evs]. apply IH. exact Hs.
Qed.

(** [cargo add] is run only by a [create_project] whose initialization
    subcommand succeeded. *)
Lemma adds_only_after_init (st : store World) :
  init_succeeded (events_of (create_project env st)) = false ->
  existsb is_add (events_of (create_project env st)) = false.
Proof.
  destruct (spawn env version_argv None (world st)) as [r w1] eqn:Hv.
  assert (Hcase : r = Exited 0 \/ r <> Exited 0).
  { destruct r as [rc| |name]; try (right; discriminate).
    destruct (Z.eq_dec rc 0) as [->|]; [now left | right; congruence]. }
  destruct Hcase as [-> | Hr].
  - destruct (spawn env (new_argv (self st)) None w1) as [r2 w2] eqn:Hn.
    destruct r2 as [rc| |name].
    + destruct (Z.eq_dec rc 0) as [->|Hrc].
      * rewrite (create_project_init_ok _ _ _ Hv Hn). intros H. discriminate H.
      * now rewrite (create_project_init_failed _ _ _ _ Hv Hn Hrc).
    + rewrite (create_project_init_not_launched _ _ _ _ Hv Hn);
        [reflexivity | discriminate].
    + rewrite (create_project_init_not_launched _ _ _ _ Hv Hn);
        [reflexivity | discriminate].
  - rewrite (create_project_no_toolchain _ _ _ Hv Hr). intros _.
    destruct r; reflexivity.
Qed.

(** With the toolchain there, the initialization subcommand is the
    second call of [create_project], whatever comes of it. *)
Lemma create_project_runs_init (st : store World) (w1 w2 : World)
  (r : proc_result) :
  spawn env version_argv None (world st) = (Exited 0, w1) ->
  spawn env (new_argv (self st)) None w1 = (r, w2) ->
  exists tail : list event,
    events_of (create_project env st)
    = EvRun version_argv None (Exited 0)
        :: EvRun (new_argv (self st)) None r :: tail.
Proof.
  intros Hv Hn. destruct r as [rc| |name].
  - destruct (Z.eq_dec rc 0) as [->|Hrc].
    + rewrite (create_project_init_ok _ _ _ Hv Hn). eexists. reflexivity.
    + rewrite (create_project_init_failed _ _ _ _ Hv Hn Hrc).
      eexists. reflexivity.
  - rewrite (create_project_init_not_launched _ _ _ _ Hv Hn);
      [eexists; reflexivity | discriminate].
  - rewrite (create_project_init_not_launched _ _ _ _ Hv Hn);
      [eexists; reflexivity | discriminate].
Qed.

(** [cargo run] is launched only with a path recorded and a probe that
    answered [True]. *)
Lemma cargo_run_only_when_ready (st : store World) :
  existsb is_cargo_run (events_of (build_and_run env st)) = true ->
  is_set (project_path (self st)) = true
  /\ result_of (_check_cargo_installed env st) = Return true.
Proof.
  destruct (project_path (self st)) as [path|] eqn:Hp.
  - destruct (spawn env version_argv None (world st)) as [r w1] eqn:Hv.
    rewrite (check_cargo_eq _ _ _ Hv).
    assert (Hcase : r = Exited 0 \/ r <> Exited 0).
    { destruct r as [rc| |name]; try (right; discriminate).
      destruct (Z.eq_dec rc 0) as [->|]; [now left | right; congruence]. }
    destruct Hcase as [-> | Hr].
    + intros _. split; reflexivity.
    + rewrite (build_and_run_no_toolchain _ _ _ _ Hp Hv Hr). intros H.
      destruct r; discriminate H.
  - rewrite (build_and_run_unset _ Hp). intros H. discriminate H.
Qed.

End Facts.

(** ** The simulated filesystem keeps the laws *)

Lemma sim_mem_filter (f : string -> bool) (x : string) (l : list string) :
  Sim.mem x (filter f l) = true -> f x = true.
Proof.
  unfold Sim.mem. intros H. apply existsb_exists in H as (y & Hin & Heq).
  apply String.eqb_eq in Heq. subst y. now apply filter_In in Hin.
Qed.

Lemma sim_under_refl (path : string) : Sim.under path path = true.
Proof. unfold Sim.under. now rewrite String.eqb_refl. Qed.

Lemma sim_fs_laws : FsLaws Sim.sim_env.
Proof.
  split; simpl.
  - intros path data w w' H. unfold Sim.sim_write_text in H.
    destruct (existsb _ (Sim.dirs w)); [|discriminate].
    injection H as <-. unfold Sim.sim_read_text. simpl.
    now rewrite String.eqb_refl.
  - intros path w w' H. unfold Sim.sim_rmtree in H.
    destruct (Sim.mem path (Sim.dirs w)); [|discriminate].
    injection H as <-. unfold Sim.sim_path_exists. simpl.
    apply orb_false_iff. split.
    + destruct (Sim.mem path (filter _ (Sim.dirs w))) eqn:E; [|reflexivity].
      apply sim_mem_filter in E. now rewrite sim_under_refl in E.
    + destruct (Sim.mem path (map fst (filter _ (Sim.files w)))) eqn:E;
        [|reflexivity].
      unfold Sim.mem in E. apply existsb_exists in E as (y & Hin & Heq).
      apply String.eqb_eq in Heq. subst y.
      apply in_map_iff in Hin as ([p d] & Hp & Hin). simpl in Hp. subst p.
      apply filter_In in Hin as [_ Hf]. simpl in Hf.
      now rewrite sim_under_refl in Hf.
Qed.

(** ** The simulated toolchain at work *)

(** A library with one dependency: created, written, removed. *)
Example demo_library :
  let st0 := Sim.start (__init__ "demo" (Some "lib") (Some ["serde"])) Sim.fresh in
  let st1 := store_of (create_project Sim.sim_env st0) in
  let st2 := store_of (write_code Sim.sim_env "pub fn hello() {}" st1) in
  let st3 := store_of (cleanup Sim.sim_env st2) in
  events_of (create_project Sim.sim_env st0)
  = [EvRun ["cargo"; "--version"] None (Exited 0);
     EvRun ["cargo"; "new"; "--lib"; "demo"] None (Exited 0);
     EvRun ["cargo"; "add"; "serde"] (Some "demo") (Exited 0)]
  /\ Sim.sim_read_text (world st1) "demo/Cargo.toml"
     = Some "[package] name = demo [dependencies] serde"
  /\ Sim.sim_read_text (world st2) "demo/src/lib.rs" = Some "pub fn hello() {}"
  /\ Sim.sim_path_exists (world st3) "demo" = false
  /\ project_path (self st3) = None.
Proof. repeat split; reflexivity. Qed.

(** The calls of one life of an instance, and the history kept along. *)
Example demo_history :
  let st0 := Sim.start (__init__ "demo" (Some "bin") None) Sim.fresh in
  let run := fun ops => run_ops Sim.sim_env ops st0 false in
  snd (run [OpWriteCode "fn main() {}"]) = false
  /\ snd (run [OpCreateProject; OpWriteCode "fn main() {}"; OpBuildAndRun]) = true
  /\ project_path (self (fst (run [OpCreateProject; OpBuildAndRun])))
     = Some "demo"
  /\ snd (run [OpCreateProject; OpCleanup; OpBuildAndRun]) = false
  /\ snd (run [OpCreateProject; OpCreateProject; OpWriteCode "fn main() {}"])
     = true.
Proof. repeat split; reflexivity. Qed.

(** A launch that finds no executable during [cargo add] raises to the
    caller of [_add_dependencies], which prints nothing. *)
Example demo_add_without_cargo :
  _add_dependencies Sim.sim_env
    (mkStore (mkRustProject "demo" "lib" (Some "demo") ["serde"]) Sim.no_cargo)
  = (Raise FileNotFoundError,
     mkStore (mkRustProject "demo" "lib" (Some "demo") ["serde"]) Sim.no_cargo,
     [EvRun ["cargo"; "add"; "serde"] (Some "demo") NoSuchFile]).
Proof. reflexivity. Qed.

(** * The claims *)

(** C1. On every instance, after any sequence of calls of its methods,
    [project_path] is set if and only if some [create_project] ran its
    initialization subcommand successfully and no [cleanup] has completed
    since.  A call that sets the path is a [create_project] whose
    initialization subcommand succeeded, and a call that clears it is a
    [cleanup] that returned; such calls do set and clear it. *)
Theorem project_path_invariant {World : Type} (env : Env World)
  (name : string) (ty : option string) (deps : option (list string))
  (w : World) (ops : list op) :
  (let final := run_ops env ops (mkStore (__init__ name ty deps) w) false in
   is_set (project_path (self (fst final))) = snd final)
  /\ (forall (st : store World) (o : op),
        let x := run_op env o st in
        (project_path (self st) = None ->
         project_path (self (store_of x)) <> None ->
         o = OpCreateProject /\ init_succeeded (events_of x) = true)
        /\ (project_path (self st) <> None ->
            project_path (self (store_of x)) = None ->
            o = OpCleanup /\ returned (result_of x) = true)
        /\ (o = OpCreateProject -> init_succeeded (events_of x) = true ->
            project_path (self (store_of x)) = Some (project_name (self st)))
        /\ (o = OpCleanup -> returned (result_of x) = true ->
            project_path (self (store_of x)) = None)).
Proof.
  split.
  - apply run_ops_sound. reflexivity.
  - intros st o x. subst x. rewrite run_op_self.
    destruct o; simpl;
      try (repeat split; intros; try congruence; discriminate).
    + destruct (init_succeeded (events_of (create_project env st))); simpl;
        repeat split; intros; try congruence; try discriminate.
    + destruct (returned (result_of (cleanup env st))); simpl;
        repeat split; intros; try congruence; try discriminate.
Qed.

(** C2. After a [create_project] whose initialization subcommand
    succeeded, [write_code code] makes exactly one external call: it opens
    for writing the file [src_file_name] joined below [src] below the
    project path, which is the project name, and writes [code] to it.  The
    file name is [lib.rs] for kind ["lib"] and [main.rs] for kind ["bin"].
    When the write succeeds the file holds exactly [code], whatever it
    held before. *)
Theorem write_code_after_create {World : Type} (env : Env World)
  (st0 : store World) (rust_code : string) (r : option exn) (w : World) :
  let st := store_of (create_project env st0) in
  let name := project_name (self st0) in
  let file := os_path_join name ["src"; src_file_name (self st0)] in
  init_succeeded (events_of (create_project env st0)) = true ->
  write_text env file rust_code (world st) = (r, w) ->
  project_path (self st) = Some name
  /\ write_code env rust_code st
     = (raise_if r, mkStore (self st) w, [EvWrite file rust_code r])
  /\ (project_type (self st0) = "lib"%string ->
      src_file_name (self st0) = "lib.rs"%string)
  /\ (project_type (self st0) = "bin"%string ->
      src_file_name (self st0) = "main.rs"%string)
  /\ (name <> EmptyString -> endswith_sep name = false ->
      file = (name ++ "/src/" ++ src_file_name (self st0))%string)
  /\ (r = None -> FsLaws env -> read_text env w file = Some rust_code).
Proof.
  intros st name file Hinit Hw.
  assert (Hself : self st = set_path (self st0) (Some name)).
  { unfold st. rewrite create_project_self, Hinit. reflexivity. }
  assert (Hfile : src_file_path (self st) name = file).
  { rewrite Hself. reflexivity. }
  assert (Hp : project_path (self st) = Some name) by (now rewrite Hself).
  split; [exact Hp|]. split.
  - rewrite <- Hfile in Hw |- *. exact (write_code_set env _ _ _ _ _ Hp Hw).
  - split; [apply src_file_name_cases|]. split.
    + intros Hb. apply src_file_name_cases. rewrite Hb. discriminate.
    + split.
      * intros Hne Hsep. exact (src_file_path_plain (self st0) name Hne Hsep).
      * intros -> Laws. exact (write_then_read env Laws _ _ _ _ Hw).
Qed.

Lemma write_code_after_create_witness :
  let st0 := Sim.start (__init__ "demo" (Some "lib") (Some ["serde"])) Sim.fresh in
  let st := store_of (create_project Sim.sim_env st0) in
  init_succeeded (events_of (create_project Sim.sim_env st0)) = true
  /\ write_code Sim.sim_env "pub fn hello() {}" st
     = (Return tt,
        mkStore (self st)
          (snd (Sim.sim_write_text "demo/src/lib.rs" "pub fn hello() {}" (world st))),
        [EvWrite "demo/src/lib.rs" "pub fn hello() {}" None])
  /\ Sim.sim_read_text
       (world (store_of (write_code Sim.sim_env "pub fn hello() {}" st)))
       "demo/src/lib.rs" = Some "pub fn hello() {}"%string.
Proof.
  intros st0 st.
  pose proof (write_code_after_create Sim.sim_env st0 "pub fn hello() {}" None
                (snd (Sim.sim_write_text "demo/src/lib.rs" "pub fn hello() {}"
                        (world st)))
                eq_refl eq_refl) as (_ & Hw & _).
  split; [reflexivity|]. split; [exact Hw | reflexivity].
Defined.

(** C3. With the dependency list [pre ++ d :: post], when the toolchain
    accepts every entry of [pre] and the invocation for [d] fails,
    [_add_dependencies] has run [cargo add] for the entries of [pre] in
    list order, then for [d], and for no entry of [post]; the world is the
    one the failed invocation left, so nothing is rolled back.  When the
    failure is an exit status other than zero, the diagnostic is printed
    and the method returns; a launch that fails raises to the caller. *)
Theorem add_dependencies_first_failure {World : Type} (env : Env World)
  (st : store World) (pre : list string) (d : string) (post : list string)
  (r : proc_result) (wk wk' : World) :
  let cwd := project_path (self st) in
  let x := _add_dependencies env st in
  dependencies (self st) = pre ++ d :: post ->
  all_added env cwd pre (world st) = Some wk ->
  spawn env (add_argv d) cwd wk = (r, wk') ->
  r <> Exited 0 ->
  store_of x = mkStore (self st) wk'
  /\ filter is_run (events_of x)
     = map (added cwd) pre ++ [EvRun (add_argv d) cwd r]
  /\ (forall rc, r = Exited rc ->
        result_of x = Return tt
        /\ events_of x
           = map (added cwd) pre
               ++ [EvRun (add_argv d) cwd r;
                   EvPrint (add_msg env (CalledProcessError rc (add_argv d)))])
  /\ ((forall rc, r <> Exited rc) ->
        result_of x = check_true (add_argv d) r
        /\ returned (result_of x) = false
        /\ events_of x = map (added cwd) pre ++ [EvRun (add_argv d) cwd r]).
Proof.
  intros cwd x Hd Hpre Hsp Hr. unfold x.
  rewrite (add_dependencies_stops env st pre d post r wk wk' Hd Hpre Hsp Hr).
  unfold store_of, result_of, events_of. cbn [fst snd]. fold cwd.
  assert (Hf : forall l, filter is_run (map (added cwd) l) = map (added cwd) l).
  { induction l as [|a l IH]; simpl; [reflexivity | now rewrite IH]. }
  split; [reflexivity|]. split.
  - rewrite filter_app, Hf. destruct r; reflexivity.
  - split.
    + intros rc ->. split; reflexivity.
    + intros Hn. destruct r as [rc| |name]; [now elim (Hn rc)|..];
        repeat split; reflexivity.
Qed.

Lemma add_dependencies_first_failure_witness :
  let st := mkStore (mkRustProject "demo" "bin" (Some "demo")
                       ["serde"; "bogus"; "rand"])
              (snd (Sim.cargo_new "--bin" "demo" Sim.fresh)) in
  _add_dependencies Sim.sim_env st
  = (Return tt,
     mkStore (self st) (snd (Sim.cargo_add "serde" (Some "demo") (world st))),
     [EvRun ["cargo"; "add"; "serde"] (Some "demo") (Exited 0);
      EvRun ["cargo"; "add"; "bogus"] (Some "demo") (Exited 101);
      EvPrint (add_msg Sim.sim_env
                 (CalledProcessError 101 ["cargo"; "add"; "bogus"]))]).
Proof.
  intros st.
  pose proof (add_dependencies_first_failure Sim.sim_env st
                ["serde"] "bogus" ["rand"] (Exited 101)
                (snd (Sim.cargo_add "serde" (Some "demo") (world st)))
                (snd (Sim.cargo_add "serde" (Some "demo") (world st)))
                eq_refl eq_refl eq_refl ltac:(discriminate))
    as (Hs & _ & He & _).
  destruct (He 101%Z eq_refl) as [Hr Hev].
  destruct (_add_dependencies Sim.sim_env st) as [[res st'] evs].
  unfold store_of, result_of, events_of in *. cbn [fst snd] in *.
  rewrite Hs, Hr, Hev. reflexivity.
Defined.

(** C4. When the toolchain is there and the initialization subcommand
    exits with a status other than zero, [create_project] prints one
    diagnostic that contains the project kind and the text of the error,
    returns, leaves the instance as it was (an unset [project_path] stays
    unset) and runs no [cargo add].  On any store, [cargo add] is run only
    by a [create_project] whose initialization subcommand succeeded, and
    then [create_project] goes on exactly as [_add_dependencies] does from
    the store with the path recorded. *)
Theorem create_project_init_failure {World : Type} (env : Env World)
  (st : store World) (w1 w2 : World) (rc : Z) :
  let x := create_project env st in
  let e := CalledProcessError rc (new_argv (self st)) in
  let msg := create_msg env (self st) e in
  spawn env version_argv None (world st) = (Exited 0, w1) ->
  spawn env (new_argv (self st)) None w1 = (Exited rc, w2) ->
  rc <> 0%Z ->
  x = (Return tt, mkStore (self st) w2,
       [EvRun version_argv None (Exited 0);
        EvRun (new_argv (self st)) None (Exited rc);
        EvPrint msg])
  /\ Contains (project_type (self st)) msg
  /\ Contains (py_str env e) msg
  /\ (project_path (self st) = None -> project_path (self (store_of x)) = None)
  /\ existsb is_add (events_of x) = false
  /\ (forall st' : store World,
        existsb is_add (events_of (create_project env st')) = true ->
        init_succeeded (events_of (create_project env st')) = true)
  /\ (forall (st' : store World) (v1 v2 : World),
        spawn env version_argv None (world st') = (Exited 0, v1) ->
        spawn env (new_argv (self st')) None v1 = (Exited 0, v2) ->
        create_project env st'
        = after [EvRun version_argv None (Exited 0);
                 EvRun (new_argv (self st')) None (Exited 0)]
            (_add_dependencies env
               (mkStore (set_path (self st') (Some (project_name (self st')))) v2))).
Proof.
  intros x e msg Hv Hn Hrc.
  assert (Hx : x = (Return tt, mkStore (self st) w2,
                    [EvRun version_argv None (Exited 0);
                     EvRun (new_argv (self st)) None (Exited rc);
                     EvPrint msg]))
    by exact (create_project_init_failed env st w1 w2 rc Hv Hn Hrc).
  split; [exact Hx|]. split.
  { unfold msg, create_msg. exists "Error creating new Rust "%string.
    eexists. reflexivity. }
  split.
  { unfold msg, create_msg.
    exists ("Error creating new Rust " ++ project_type (self st) ++ " project: ")%string,
      EmptyString.
    rewrite append_empty_r, !append_assoc. reflexivity. }
  split; [rewrite Hx; intros H; exact H|].
  split; [rewrite Hx; reflexivity|]. split.
  - intros st' Hadd.
    destruct (init_succeeded (events_of (create_project env st'))) eqn:E;
      [reflexivity|].
    rewrite (adds_only_after_init env st' E) in Hadd. discriminate Hadd.
  - intros st' v1 v2 Hv' Hn'. exact (create_project_init_ok env st' v1 v2 Hv' Hn').
Qed.

Lemma create_project_init_failure_witness :
  let w := Sim.mkWorld true ["demo"] [] [] in
  let st := Sim.start (__init__ "demo" (Some "lib") (Some ["serde"])) w in
  create_project Sim.sim_env st
  = (Return tt, st,
     [EvRun ["cargo"; "--version"] None (Exited 0);
      EvRun ["cargo"; "new"; "--lib"; "demo"] None (Exited 101);
      EvPrint "Error creating new Rust lib project: Command 'cargo new --lib demo' returned non-zero exit status."]).
Proof.
  intros w st.
  exact (proj1 (create_project_init_failure Sim.sim_env st w w 101
                  eq_refl eq_refl ltac:(discriminate))).
Defined.

(** C5. While [project_path] is unset, [write_code code] and
    [build_and_run] print the diagnostic and return: the diagnostic is the
    only external call, so nothing is written, removed or launched, and
    the instance and the world are as they were. *)
Theorem unset_path_is_refused {World : Type} (env : Env World)
  (st : store World) (rust_code : string) :
  project_path (self st) = None ->
  write_code env rust_code st = (Return tt, st, [EvPrint not_created_msg])
  /\ build_and_run env st = (Return tt, st, [EvPrint not_created_msg])
  /\ existsb is_fs (events_of (write_code env rust_code st)) = false
  /\ existsb is_run (events_of (write_code env rust_code st)) = false
  /\ existsb is_fs (events_of (build_and_run env st)) = false
  /\ existsb is_run (events_of (build_and_run env st)) = false.
Proof.
  intros H.
  rewrite (write_code_unset env rust_code st H), (build_and_run_unset env st H).
  repeat split; reflexivity.
Qed.

Lemma unset_path_is_refused_witness :
  let st := Sim.start (__init__ "demo" None None) Sim.fresh in
  project_path (self st) = None
  /\ write_code Sim.sim_env "fn main() {}" st
     = (Return tt, st, [EvPrint "Error: Rust project not created."])
  /\ build_and_run Sim.sim_env st
     = (Return tt, st, [EvPrint "Error: Rust project not created."]).
Proof.
  intros st.
  pose proof (unset_path_is_refused Sim.sim_env st "fn main() {}" eq_refl)
    as (Hw & Hb & _).
  split; [reflexivity|]. split; [exact Hw | exact Hb].
Defined.

(** C6. With [project_path] unset, [cleanup] makes no external call and
    leaves the instance and the world as they were.  After a
    [create_project] whose initialization subcommand succeeded, [cleanup]
    calls [shutil.rmtree] on the project path and nothing else; when that
    returns, [project_path] is [None], the directory is gone, and
    [write_code] and [build_and_run] again print that no project is
    created. *)
Theorem cleanup_resets {World : Type} (env : Env World) (st0 : store World) :
  (project_path (self st0) = None -> cleanup env st0 = (Return tt, st0, []))
  /\ (forall w' : World,
        let st := store_of (create_project env st0) in
        let name := project_name (self st0) in
        let st' := store_of (cleanup env st) in
        init_succeeded (events_of (create_project env st0)) = true ->
        rmtree env name (world st) = (None, w') ->
        cleanup env st
        = (Return tt, mkStore (set_path (self st) None) w', [EvRmtree name None])
        /\ project_path (self st') = None
        /\ (FsLaws env -> path_exists env (world st') name = false)
        /\ (forall rust_code,
              write_code env rust_code st'
              = (Return tt, st', [EvPrint not_created_msg]))
        /\ build_and_run env st' = (Return tt, st', [EvPrint not_created_msg])).
Proof.
  split; [apply cleanup_unset|].
  intros w' st name st' Hinit Hrm.
  assert (Hp : project_path (self st) = Some name).
  { unfold st. rewrite create_project_self, Hinit. reflexivity. }
  assert (Hc : cleanup env st
               = (Return tt, mkStore (set_path (self st) None) w',
                  [EvRmtree name None]))
    by exact (cleanup_set env name st None w' Hp Hrm).
  assert (Hst' : st' = mkStore (set_path (self st) None) w')
    by (unfold st'; now rewrite Hc).
  assert (Hn : project_path (self st') = None) by (now rewrite Hst').
  split; [exact Hc|]. split; [exact Hn|]. split.
  - intros Laws. rewrite Hst'. exact (rmtree_removes env Laws _ _ _ Hrm).
  - split; [intros rust_code; now apply write_code_unset
           | now apply build_and_run_unset].
Qed.

Lemma cleanup_resets_witness :
  let st0 := Sim.start (__init__ "demo" (Some "lib") (Some ["serde"])) Sim.fresh in
  let st := store_of (create_project Sim.sim_env st0) in
  let st' := store_of (cleanup Sim.sim_env st) in
  cleanup Sim.sim_env st0 = (Return tt, st0, [])
  /\ events_of (cleanup Sim.sim_env st) = [EvRmtree "demo" None]
  /\ project_path (self st') = None
  /\ Sim.sim_path_exists (world st') "demo" = false
  /\ build_and_run Sim.sim_env st' = (Return tt, st', [EvPrint not_created_msg]).
Proof.
  intros st0 st st'.
  destruct (cleanup_resets Sim.sim_env st0) as [Hnone Hsome].
  destruct (Hsome (snd (Sim.sim_rmtree "demo" (world st))) eq_refl eq_refl)
    as (Hc & Hp & Hgone & _ & Hb).
  split; [exact (Hnone eq_refl)|].
  split; [exact (f_equal (@events_of unit Sim.world) Hc)|].
  split; [exact Hp|]. split; [exact (Hgone sim_fs_laws) | exact Hb].
Defined.

(** C7. [build_and_run] with [project_path] unset prints the diagnostic
    and returns; with the path set and a probe that answers [False] it
    returns after the probe's diagnostic; in both it does not run
    [cargo run].  With the path set and a probe that answers [True] it
    runs [cargo run] with the project path as working directory.  It runs
    [cargo run] only with the path set and a probe that answered [True]. *)
Theorem build_and_run_gates {World : Type} (env : Env World) (st : store World) :
  (project_path (self st) = None ->
   build_and_run env st = (Return tt, st, [EvPrint not_created_msg]))
  /\ (forall (path : string) (w1 : World),
        project_path (self st) = Some path ->
        spawn env version_argv None (world st) = (NoSuchFile, w1) ->
        result_of (_check_cargo_installed env st) = Return false
        /\ build_and_run env st
           = (Return tt, mkStore (self st) w1,
              [EvRun version_argv None NoSuchFile; EvPrint not_installed_msg]))
  /\ (forall (path : string) (w1 w2 : World) (r : proc_result),
        project_path (self st) = Some path ->
        spawn env version_argv None (world st) = (Exited 0, w1) ->
        spawn env run_argv (Some path) w1 = (r, w2) ->
        result_of (_check_cargo_installed env st) = Return true
        /\ store_of (build_and_run env st) = mkStore (self st) w2
        /\ filter is_run (events_of (build_and_run env st))
           = [EvRun version_argv None (Exited 0); EvRun run_argv (Some path) r])
  /\ (existsb is_cargo_run (events_of (build_and_run env st)) = true ->
      is_set (project_path (self st)) = true
      /\ result_of (_check_cargo_installed env st) = Return true).
Proof.
  split; [apply build_and_run_unset|]. split.
  - intros path w1 Hp Hv. split.
    + now rewrite (check_cargo_eq env st _ _ Hv).
    + rewrite (build_and_run_no_toolchain env path st _ _ Hp Hv);
        [reflexivity | discriminate].
  - split; [|apply cargo_run_only_when_ready].
    intros path w1 w2 r Hp Hv Hr. split.
    + now rewrite (check_cargo_eq env st _ _ Hv).
    + rewrite (build_and_run_toolchain env path st r w1 w2 Hp Hv Hr).
      split; [reflexivity|].
      unfold events_of. cbn [snd]. destruct r as [rc| |name]; try reflexivity.
      destruct (Z.eqb rc 0); reflexivity.
Qed.

Lemma build_and_run_gates_witness :
  let st0 := Sim.start (__init__ "demo" (Some "bin") None) Sim.fresh in
  let st := store_of (create_project Sim.sim_env st0) in
  let gone := mkStore (self st) Sim.no_cargo in
  build_and_run Sim.sim_env st0 = (Return tt, st0, [EvPrint not_created_msg])
  /\ build_and_run Sim.sim_env gone
     = (Return tt, gone,
        [EvRun version_argv None NoSuchFile; EvPrint not_installed_msg])
  /\ filter is_run (events_of (build_and_run Sim.sim_env st))
     = [EvRun version_argv None (Exited 0);
        EvRun run_argv (Some "demo"%string) (Exited 0)].
Proof.
  intros st0 st gone.
  destruct (build_and_run_gates Sim.sim_env st0) as (H0 & _).
  destruct (build_and_run_gates Sim.sim_env gone) as (_ & H1 & _).
  destruct (build_and_run_gates Sim.sim_env st) as (_ & _ & H2 & _).
  split; [exact (H0 eq_refl)|]. split.
  - exact (proj2 (H1 "demo"%string Sim.no_cargo eq_refl eq_refl)).
  - exact (proj2 (proj2 (H2 "demo"%string (world st) (world st) (Exited 0)
                           eq_refl eq_refl eq_refl))).
Defined.

(** C8. When the toolchain executable cannot be found,
    [_check_cargo_installed] returns [False] after its diagnostic, and
    [create_project] returns with the instance as it was (an unset
    [project_path] stays unset): its one [subprocess.run] is the probe that
    found no executable, so no process is started and neither
    [cargo new] nor [cargo add] is run. *)
Theorem toolchain_absent {World : Type} (env : Env World) (st : store World)
  (w1 : World) :
  let probe := [EvRun version_argv None NoSuchFile; EvPrint not_installed_msg] in
  let x := create_project env st in
  spawn env version_argv None (world st) = (NoSuchFile, w1) ->
  _check_cargo_installed env st = (Return false, mkStore (self st) w1, probe)
  /\ x = (Return tt, mkStore (self st) w1, probe)
  /\ existsb launched (events_of x) = false
  /\ filter is_run (events_of x) = [EvRun version_argv None NoSuchFile]
  /\ init_succeeded (events_of x) = false
  /\ existsb is_add (events_of x) = false
  /\ (project_path (self st) = None -> project_path (self (store_of x)) = None).
Proof.
  intros probe x Hv.
  assert (Hx : x = (Return tt, mkStore (self st) w1, probe)).
  { unfold x. rewrite (create_project_no_toolchain env st _ _ Hv);
      [reflexivity | discriminate]. }
  split; [exact (check_cargo_eq env st _ _ Hv)|].
  split; [exact Hx|]. rewrite Hx.
  repeat split; try reflexivity. intros H. exact H.
Qed.

Lemma toolchain_absent_witness :
  let st := Sim.start (__init__ "demo" (Some "lib") (Some ["serde"])) Sim.no_cargo in
  result_of (_check_cargo_installed Sim.sim_env st) = Return false
  /\ create_project Sim.sim_env st
     = (Return tt, st,
        [EvRun ["cargo"; "--version"] None NoSuchFile;
         EvPrint "Error: Cargo is not installed. Please install Rust and Cargo."]).
Proof.
  intros st.
  destruct (toolchain_absent Sim.sim_env st Sim.no_cargo eq_refl)
    as (Hc & Hx & _).
  split; [exact (f_equal (@result_of bool Sim.world) Hc) | exact Hx].
Defined.

(** C9. [_check_cargo_installed] returns [False] exactly when the launch
    of the version query finds no executable, and then it has printed its
    diagnostic and raised nothing.  It returns [True] exactly when the
    query exits with status zero.  An exit status other than zero raises
    [CalledProcessError] to the caller and any other launch error raises
    as it is, both without a diagnostic. *)
Theorem check_cargo_installed_cases {World : Type} (env : Env World)
  (st : store World) (r : proc_result) (w : World) :
  let x := _check_cargo_installed env st in
  spawn env version_argv None (world st) = (r, w) ->
  store_of x = mkStore (self st) w
  /\ (result_of x = Return false <-> r = NoSuchFile)
  /\ (r = NoSuchFile ->
      events_of x = [EvRun version_argv None r; EvPrint not_installed_msg])
  /\ (result_of x = Return true <-> r = Exited 0)
  /\ (forall rc, r = Exited rc -> rc <> 0%Z ->
        result_of x = Raise (CalledProcessError rc version_argv))
  /\ (forall name, r = LaunchError name -> result_of x = Raise (OtherError name))
  /\ (r <> NoSuchFile -> events_of x = [EvRun version_argv None r]).
Proof.
  intros x Hv. unfold x. rewrite (check_cargo_eq env st _ _ Hv).
  unfold store_of, result_of, events_of. cbn [fst snd].
  split; [reflexivity|].
  destruct r as [rc| |name]; simpl.
  - destruct (Z.eqb_spec rc 0) as [->|Hrc]; repeat split;
      intros; try congruence; try discriminate.
  - repeat split; intros; try congruence; try discriminate.
  - repeat split; intros; try congruence; try discriminate.
Qed.

Lemma check_cargo_installed_cases_witness :
  result_of (_check_cargo_installed Sim.sim_env
               (Sim.start (__init__ "demo" None None) Sim.no_cargo))
  = Return false
  /\ result_of (_check_cargo_installed Sim.sim_env
                  (Sim.start (__init__ "demo" None None) Sim.fresh))
     = Return true.
Proof.
  split.
  - exact (proj2 (proj1 (proj2 (check_cargo_installed_cases Sim.sim_env
             (Sim.start (__init__ "demo" None None) Sim.no_cargo)
             NoSuchFile Sim.no_cargo eq_refl))) eq_refl).
  - destruct (check_cargo_installed_cases Sim.sim_env
                (Sim.start (__init__ "demo" None None) Sim.fresh)
                (Exited 0) Sim.fresh eq_refl) as (_ & _ & _ & [_ Ht] & _).
    exact (Ht eq_refl).
Defined.

(** C10. For a [project_type] that is not exactly ["lib"], the flag is
    [--bin] and the source file is [main.rs]: with the toolchain there,
    the second call of [create_project] is [cargo new --bin name], and
    with a path recorded [write_code] writes to [main.rs] below [src]
    below it.  [__init__] keeps whatever kind it is given. *)
Theorem other_kinds_are_executables {World : Type} (env : Env World)
  (st : store World) :
  project_type (self st) <> "lib"%string ->
  project_type_flag (self st) = "--bin"%string
  /\ src_file_name (self st) = "main.rs"%string
  /\ (forall (w1 w2 : World) (r : proc_result),
        spawn env version_argv None (world st) = (Exited 0, w1) ->
        spawn env ["cargo"; "new"; "--bin"; project_name (self st)] None w1
        = (r, w2) ->
        exists tail : list event,
          events_of (create_project env st)
          = EvRun version_argv None (Exited 0)
              :: EvRun ["cargo"; "new"; "--bin"; project_name (self st)] None r
              :: tail)
  /\ (forall (path rust_code : string) (r : option exn) (w : World),
        project_path (self st) = Some path ->
        write_text env (os_path_join path ["src"; "main.rs"]) rust_code (world st)
        = (r, w) ->
        write_code env rust_code st
        = (raise_if r, mkStore (self st) w,
           [EvWrite (os_path_join path ["src"; "main.rs"]) rust_code r]))
  /\ (forall (name t : string) (deps : option (list string)),
        project_type (__init__ name (Some t) deps) = t).
Proof.
  intros Hty.
  assert (Hflag : project_type_flag (self st) = "--bin"%string)
    by (now apply project_type_flag_cases).
  assert (Hsrc : src_file_name (self st) = "main.rs"%string)
    by (now apply src_file_name_cases).
  split; [exact Hflag|]. split; [exact Hsrc|]. split.
  - intros w1 w2 r Hv Hn.
    assert (Hargv : new_argv (self st)
                    = ["cargo"; "new"; "--bin"; project_name (self st)])
      by (unfold new_argv; now rewrite Hflag).
    rewrite <- Hargv in Hn |- *.
    exact (create_project_runs_init env st w1 w2 r Hv Hn).
  - split; [|reflexivity].
    intros path rust_code r w Hp Hw.
    assert (Hfile : src_file_path (self st) path
                    = os_path_join path ["src"; "main.rs"])
      by (unfold src_file_path; now rewrite Hsrc).
    rewrite <- Hfile in Hw |- *.
    exact (write_code_set env rust_code path st r w Hp Hw).
Qed.

Lemma other_kinds_are_executables_witness :
  let st0 := Sim.start (__init__ "demo" (Some "library") None) Sim.fresh in
  let st := store_of (create_project Sim.sim_env st0) in
  project_type (self st0) <> "lib"%string
  /\ project_type_flag (self st0) = "--bin"%string
  /\ write_code Sim.sim_env "fn main() {}" st
     = (Return tt,
        mkStore (self st)
          (snd (Sim.sim_write_text "demo/src/main.rs" "fn main() {}" (world st))),
        [EvWrite "demo/src/main.rs" "fn main() {}" None]).
Proof.
  intros st0 st.
  assert (H0 : project_type (self st0) <> "lib"%string) by discriminate.
  assert (H1 : project_type (self st) <> "lib"%string) by discriminate.
  split; [exact H0|]. split.
  - exact (proj1 (other_kinds_are_executables Sim.sim_env st0 H0)).
  - destruct (other_kinds_are_executables Sim.sim_env st H1) as (_ & _ & _ & Hw & _).
    exact (Hw "demo"%string "fn main() {}"%string None
              (snd (Sim.sim_write_text "demo/src/main.rs" "fn main() {}" (world st)))
              eq_refl eq_refl).
Defined.

(** * More of the methods *)

Section Reach.

Context {World : Type}.
Variable env : Env World.

Lemma commands_app (evs1 evs2 : list event) :
  commands (evs1 ++ evs2) = commands evs1 ++ commands evs2.
Proof.
  induction evs1 as [|ev evs1 IH]; [reflexivity|].
  destruct ev; simpl; now rewrite IH.
Qed.

Lemma trichotomy (r : proc_result) : r = Exited 0 \/ r <> Exited 0.
Proof.
  destruct r as [rc| |name]; try (right; discriminate).
  destruct (Z.eq_dec rc 0) as [->|]; [now left | right; congruence].
Qed.

(** The loop runs [cargo add] for a prefix of the list, in list order. *)
Lemma loop_commands (deps : list string) :
  forall st : store World,
    exists n : nat,
      commands (events_of (for_each deps (add_body env) st))
      = firstn n (map (fun dep => (add_argv dep, project_path (self st))) deps).
Proof.
  induction deps as [|d deps IH]; intros st.
  - exists 0. reflexivity.
  - destruct (spawn env (add_argv d) (project_path (self st)) (world st))
      as [r w1] eqn:E.
    rewrite for_each_cons, (add_body_eq env _ _ _ _ E).
    destruct (check_true (add_argv d) r) as [[]|e].
    + destruct (IH (mkStore (self st) w1)) as [n Hn].
      exists (S n). unfold after, events_of in *. cbn [snd] in *.
      simpl. now rewrite Hn.
    + exists 1. reflexivity.
Qed.

Lemma add_dependencies_commands (st : store World) :
  exists n : nat,
    commands (events_of (_add_dependencies env st)) = firstn n (add_plan (self st)).
Proof.
  rewrite add_dependencies_eq. unfold add_plan.
  destruct (dependencies (self st)) as [|d ds] eqn:Hd.
  - exists 0. reflexivity.
  - rewrite try_except_print. destruct (loop_commands (d :: ds) st) as [n Hn].
    exists n.
    destruct (for_each (d :: ds) (add_body env) st) as [[[u|e] st1] evs1];
      unfold events_of in *; cbn [snd] in *; [exact Hn|].
    destruct (is_CalledProcessError e); cbn [snd]; [|exact Hn].
    rewrite commands_app. simpl. now rewrite app_nil_r.
Qed.

Lemma create_project_commands (st : store World) :
  exists n : nat,
    1 <= n
    /\ commands (events_of (create_project env st))
       = firstn n (create_plan (self st)).
Proof.
  destruct (spawn env version_argv None (world st)) as [r w1] eqn:Hv.
  destruct (trichotomy r) as [-> | Hr].
  - destruct (spawn env (new_argv (self st)) None w1) as [r2 w2] eqn:Hn.
    destruct r2 as [rc| |name].
    + destruct (Z.eq_dec rc 0) as [->|Hrc].
      * rewrite (create_project_init_ok env _ _ _ Hv Hn).
        destruct (add_dependencies_commands
          (mkStore (set_path (self st) (Some (project_name (self st)))) w2))
          as [n Hc].
        exists (S (S n)). split; [lia|].
        unfold after, events_of in *. cbn [snd] in *. simpl in *.
        now rewrite Hc.
      * rewrite (create_project_init_failed env _ _ _ _ Hv Hn Hrc).
        exists 2. split; [lia | reflexivity].
    + rewrite (create_project_init_not_launched env _ _ _ _ Hv Hn);
        [|discriminate]. exists 2. split; [lia | reflexivity].
    + rewrite (create_project_init_not_launched env _ _ _ _ Hv Hn);
        [|discriminate]. exists 2. split; [lia | reflexivity].
  - rewrite (create_project_no_toolchain env _ _ _ Hv Hr).
    exists 1. split; [lia|]. destruct r; reflexivity.
Qed.

Lemma build_and_run_commands (st : store World) :
  exists n : nat,
    commands (events_of (build_and_run env st)) = firstn n (run_plan (self st)).
Proof.
  unfold run_plan. destruct (project_path (self st)) as [path|] eqn:Hp.
  - destruct (spawn env version_argv None (world st)) as [r w1] eqn:Hv.
    destruct (trichotomy r) as [-> | Hr].
    + destruct (spawn env run_argv (Some path) w1) as [r2 w2] eqn:Hn.
      rewrite (build_and_run_toolchain env _ _ _ _ _ Hp Hv Hn).
      exists 2. unfold events_of. cbn [snd].
      destruct r2 as [rc| |name]; try reflexivity.
      destruct (Z.eqb rc 0); reflexivity.
    + rewrite (build_and_run_no_toolchain env _ _ _ _ Hp Hv Hr).
      exists 1. destruct r; reflexivity.
  - rewrite (build_and_run_unset env _ Hp). exists 0. reflexivity.
Qed.

(** *** Which method makes which kind of call *)

Lemma adds_touch_no_file (evs : list event) :
  Forall (fun ev => (is_add ev || is_print ev)%bool = true) evs ->
  existsb is_fs evs = false.
Proof.
  induction 1 as [|ev evs Hev _ IH]; [reflexivity|].
  simpl. rewrite IH, orb_false_r.
  destruct ev as [argv cwd r|line|path data r|path r]; try reflexivity;
    discriminate Hev.
Qed.

Lemma check_cargo_no_fs (st : store World) :
  existsb is_fs (events_of (_check_cargo_installed env st)) = false.
Proof.
  destruct (spawn env version_argv None (world st)) as [r w] eqn:Hv.
  rewrite (check_cargo_eq env _ _ _ Hv). destruct r; reflexivity.
Qed.

Lemma add_dependencies_no_fs (st : store World) :
  existsb is_fs (events_of (_add_dependencies env st)) = false.
Proof. apply adds_touch_no_file, add_dependencies_frame. Qed.

Lemma create_project_no_fs (st : store World) :
  existsb is_fs (events_of (create_project env st)) = false.
Proof.
  destruct (spawn env version_argv None (world st)) as [r w1] eqn:Hv.
  destruct (trichotomy r) as [-> | Hr].
  - destruct (spawn env (new_argv (self st)) None w1) as [r2 w2] eqn:Hn.
    destruct r2 as [rc| |name].
    + destruct (Z.eq_dec rc 0) as [->|Hrc].
      * rewrite (create_project_init_ok env _ _ _ Hv Hn).
        unfold after, events_of. cbn [snd]. simpl.
        apply add_dependencies_no_fs.
      * now rewrite (create_project_init_failed env _ _ _ _ Hv Hn Hrc).
    + rewrite (create_project_init_not_launched env _ _ _ _ Hv Hn);
        [reflexivity | discriminate].
    + rewrite (create_project_init_not_launched env _ _ _ _ Hv Hn);
        [reflexivity | discriminate].
  - rewrite (create_project_no_toolchain env _ _ _ Hv Hr). destruct r; reflexivity.
Qed.

Lemma build_and_run_no_fs (st : store World) :
  existsb is_fs (events_of (build_and_run env st)) = false.
Proof.
  destruct (project_path (self st)) as [path|] eqn:Hp.
  - destruct (spawn env version_argv None (world st)) as [r w1] eqn:Hv.
    destruct (trichotomy r) as [-> | Hr].
    + destruct (spawn env run_argv (Some path) w1) as [r2 w2] eqn:Hn.
      rewrite (build_and_run_toolchain env _ _ _ _ _ Hp Hv Hn).
      unfold events_of. cbn [snd]. destruct r2 as [rc| |name]; try reflexivity.
      destruct (Z.eqb rc 0); reflexivity.
    + rewrite (build_and_run_no_toolchain env _ _ _ _ Hp Hv Hr).
      destruct r; reflexivity.
  - now rewrite (build_and_run_unset env _ Hp).
Qed.

Lemma write_code_calls (rust_code : string) (st : store World) :
  existsb is_run (events_of (write_code env rust_code st)) = false
  /\ existsb is_rmtree (events_of (write_code env rust_code st)) = false.
Proof.
  destruct (project_path (self st)) as [path|] eqn:Hp.
  - destruct (write_text env (src_file_path (self st) path) rust_code (world st))
      as [r w] eqn:Hw.
    rewrite (write_code_set env _ _ _ _ _ Hp Hw). split; reflexivity.
  - rewrite (write_code_unset env _ _ Hp). split; reflexivity.
Qed.

Lemma cleanup_calls (st : store World) :
  existsb is_run (events_of (cleanup env st)) = false
  /\ existsb is_write (events_of (cleanup env st)) = false
  /\ existsb is_print (events_of (cleanup env st)) = false.
Proof.
  destruct (project_path (self st)) as [path|] eqn:Hp.
  - destruct (rmtree env path (world st)) as [r w] eqn:Hr.
    rewrite (cleanup_set env _ _ _ _ Hp Hr). repeat split; reflexivity.
  - rewrite (cleanup_unset env _ Hp). repeat split; reflexivity.
Qed.

(** *** The arguments of the constructor stay *)

Lemma same_given_refl (s : RustProject) : same_given s s.
Proof. repeat split. Qed.

Lemma same_given_set_path (s : RustProject) (p : option string) :
  same_given (set_path s p) s.
Proof. repeat split. Qed.

Lemma same_given_trans (a b c : RustProject) :
  same_given a b -> same_given b c -> same_given a c.
Proof.
  intros (H1 & H2 & H3) (K1 & K2 & K3).
  repeat split; congruence.
Qed.

Lemma run_op_same_given (o : op) (st : store World) :
  same_given (self (store_of (run_op env o st))) (self st).
Proof.
  rewrite run_op_self. destruct o; try apply same_given_refl.
  - destruct (init_succeeded _);
      [apply same_given_set_path | apply same_given_refl].
  - destruct (returned _); [apply same_given_set_path | apply same_given_refl].
Qed.

Lemma run_ops_same_given (ops : list op) :
  forall (st : store World) (created : bool),
    same_given (self (fst (run_ops env ops st created))) (self st).
Proof.
  induction ops as [|o ops IH]; intros st created; simpl;
    [apply same_given_refl|].
  pose proof (run_op_same_given o st) as Hs.
  destruct (run_op env o st) as [[r st1] evs]. unfold store_of in Hs. simpl in Hs.
  eapply same_given_trans; [apply IH | exact Hs].
Qed.

Lemma set_path_back (s : RustProject) (p : option string) :
  project_path s = None -> set_path (set_path s p) None = s.
Proof. destruct s as [n t q d]. simpl. intros ->. reflexivity. Qed.

End Reach.

Lemma commands_added (cwd : option string) (deps : list string) :
  commands (map (added cwd) deps) = map (fun dep => (add_argv dep, cwd)) deps.
Proof. induction deps as [|d ds IH]; simpl; [reflexivity | now rewrite IH]. Qed.

Lemma added_prints_nothing (cwd : option string) (deps : list string) :
  existsb is_print (map (added cwd) deps) = false.
Proof. induction deps as [|d ds IH]; simpl; [reflexivity | exact IH]. Qed.

(** X1. An instance constructed with the default kind and with no
    dependencies (none given, or an empty list) is a library without
    dependencies and without a path; with the toolchain there and
    [cargo new] accepted, [create_project] runs the probe and
    [cargo new --lib name], nothing else, prints nothing and records the
    name as the path. *)
Theorem defaults_make_a_library {World : Type} (env : Env World)
  (name : string) (deps : option (list string)) (w w1 w2 : World) :
  let obj := __init__ name None deps in
  deps = None \/ deps = Some [] ->
  spawn env version_argv None w = (Exited 0, w1) ->
  spawn env ["cargo"; "new"; "--lib"; name] None w1 = (Exited 0, w2) ->
  project_type obj = "lib"%string
  /\ dependencies obj = []
  /\ project_path obj = None
  /\ create_project env (mkStore obj w)
     = (Return tt, mkStore (set_path obj (Some name)) w2,
        [EvRun version_argv None (Exited 0);
         EvRun ["cargo"; "new"; "--lib"; name] None (Exited 0)]).
Proof.
  intros obj Hdeps Hv Hn.
  assert (Hd : dependencies obj = []) by (destruct Hdeps as [-> | ->]; reflexivity).
  repeat split; try exact Hd.
  rewrite (create_project_init_ok env (mkStore obj w) w1 w2 Hv Hn).
  rewrite add_dependencies_eq. cbn [self]. simpl dependencies.
  destruct Hdeps as [-> | ->]; reflexivity.
Qed.

Lemma defaults_make_a_library_witness :
  create_project Sim.sim_env (Sim.start (__init__ "demo" None (Some [])) Sim.fresh)
  = (Return tt,
     mkStore (set_path (__init__ "demo" None (Some [])) (Some "demo"%string))
             (snd (Sim.cargo_new "--lib" "demo" Sim.fresh)),
     [EvRun version_argv None (Exited 0);
      EvRun ["cargo"; "new"; "--lib"; "demo"] None (Exited 0)]).
Proof.
  exact (proj2 (proj2 (proj2
    (defaults_make_a_library Sim.sim_env "demo" (Some []) Sim.fresh Sim.fresh
       (snd (Sim.cargo_new "--lib" "demo" Sim.fresh))
       (or_intror eq_refl) eq_refl eq_refl)))).
Defined.

(** X2. When the toolchain accepts every entry of the dependency list,
    [_add_dependencies] runs [cargo add] once for each entry, in list
    order, with the project path as working directory, prints nothing and
    returns; with an empty list it makes no call and leaves the world as
    it was. *)
Theorem add_dependencies_all_accepted {World : Type} (env : Env World)
  (st : store World) (w : World) :
  let x := _add_dependencies env st in
  all_added env (project_path (self st)) (dependencies (self st)) (world st)
  = Some w ->
  x = (Return tt, mkStore (self st) w,
       map (added (project_path (self st))) (dependencies (self st)))
  /\ commands (events_of x) = add_plan (self st)
  /\ existsb is_print (events_of x) = false
  /\ (dependencies (self st) = [] -> events_of x = [] /\ w = world st).
Proof.
  intros x H.
  assert (Hx : x = (Return tt, mkStore (self st) w,
                    map (added (project_path (self st))) (dependencies (self st))))
    by exact (add_dependencies_all env st w H).
  split; [exact Hx|]. rewrite Hx. unfold events_of, add_plan. cbn [snd].
  split; [apply commands_added|]. split; [apply added_prints_nothing|].
  intros Hd. rewrite Hd in H |- *. simpl in H. injection H as <-.
  split; reflexivity.
Qed.

Lemma add_dependencies_all_accepted_witness :
  let st := mkStore (mkRustProject "demo" "lib" (Some "demo") ["serde"; "rand"])
              (snd (Sim.cargo_new "--lib" "demo" Sim.fresh)) in
  commands (events_of (_add_dependencies Sim.sim_env st))
  = [(["cargo"; "add"; "serde"], Some "demo"%string);
     (["cargo"; "add"; "rand"], Some "demo"%string)].
Proof.
  intros st.
  exact (proj1 (proj2
    (add_dependencies_all_accepted Sim.sim_env st
       (world (store_of (_add_dependencies Sim.sim_env st))) eq_refl))).
Defined.

(** X3. Whatever the toolchain answers, [_add_dependencies] runs
    [cargo add] for a prefix of the dependency list, in list order and
    each entry at most once, always with the current [project_path] as
    working directory (the caller's directory when the path is unset); it
    touches no file, leaves the instance as it was, and never lets a
    [CalledProcessError] out. *)
Theorem add_dependencies_runs_a_prefix {World : Type} (env : Env World)
  (st : store World) :
  let x := _add_dependencies env st in
  (exists n : nat, commands (events_of x) = firstn n (add_plan (self st)))
  /\ existsb is_fs (events_of x) = false
  /\ self (store_of x) = self st
  /\ (forall e, result_of x = Raise e -> is_CalledProcessError e = false).
Proof.
  intros x. unfold x.
  destruct (add_dependencies_frame env st) as (Hs & _ & Hc).
  split; [apply add_dependencies_commands|].
  split; [apply add_dependencies_no_fs|]. split; [exact Hs | exact Hc].
Qed.

(** X4. With the toolchain there, [cargo new] accepted and every
    dependency accepted, [create_project] returns with the project name
    as path, having run exactly the probe, [cargo new] and one
    [cargo add] per dependency in list order inside the new directory,
    and having printed nothing. *)
Theorem create_project_success {World : Type} (env : Env World)
  (st : store World) (w1 w2 w3 : World) :
  let name := project_name (self st) in
  let x := create_project env st in
  spawn env version_argv None (world st) = (Exited 0, w1) ->
  spawn env (new_argv (self st)) None w1 = (Exited 0, w2) ->
  all_added env (Some name) (dependencies (self st)) w2 = Some w3 ->
  x = (Return tt, mkStore (set_path (self st) (Some name)) w3,
       EvRun version_argv None (Exited 0)
         :: EvRun (new_argv (self st)) None (Exited 0)
         :: map (added (Some name)) (dependencies (self st)))
  /\ commands (events_of x) = create_plan (self st)
  /\ existsb is_print (events_of x) = false.
Proof.
  intros name x Hv Hn Hall.
  set (st2 := mkStore (set_path (self st) (Some name)) w2).
  assert (Hadd : _add_dependencies env st2
                 = (Return tt, mkStore (self st2) w3,
                    map (added (project_path (self st2))) (dependencies (self st2))))
    by exact (add_dependencies_all env st2 w3 Hall).
  assert (Hx : x = (Return tt, mkStore (set_path (self st) (Some name)) w3,
                    EvRun version_argv None (Exited 0)
                      :: EvRun (new_argv (self st)) None (Exited 0)
                      :: map (added (Some name)) (dependencies (self st)))).
  { unfold x. rewrite (create_project_init_ok env st w1 w2 Hv Hn).
    fold name. fold st2. rewrite Hadd. reflexivity. }
  split; [exact Hx|]. rewrite Hx. unfold events_of, create_plan, add_plan.
  cbn [snd]. simpl. fold name. split.
  - do 2 f_equal. apply commands_added.
  - apply added_prints_nothing.
Qed.

Lemma create_project_success_witness :
  let st := Sim.start (__init__ "demo" (Some "bin") (Some ["serde"; "rand"]))
              Sim.fresh in
  commands (events_of (create_project Sim.sim_env st))
  = [(["cargo"; "--version"], None);
     (["cargo"; "new"; "--bin"; "demo"], None);
     (["cargo"; "add"; "serde"], Some "demo"%string);
     (["cargo"; "add"; "rand"], Some "demo"%string)]
  /\ project_path (self (store_of (create_project Sim.sim_env st)))
     = Some "demo"%string.
Proof.
  intros st.
  destruct (create_project_success Sim.sim_env st Sim.fresh
              (snd (Sim.cargo_new "--bin" "demo" Sim.fresh))
              (world (store_of (create_project Sim.sim_env st)))
              eq_refl eq_refl eq_refl) as (Hx & Hc & _).
  split; [exact Hc|].
  exact (f_equal (fun y => project_path (self (@store_of unit Sim.world y))) Hx).
Defined.

(** X5. When [cargo new] is accepted and a later [cargo add] fails,
    [create_project] still leaves [project_path] set to the project name:
    the project counts as created with only a part of its dependencies.
    After an exit status other than zero [create_project] returns and the
    one diagnostic is the one about the dependency; after a launch error
    the exception reaches the caller and nothing is printed. *)
Theorem create_project_dependency_failure {World : Type} (env : Env World)
  (st : store World) (pre : list string) (d : string) (post : list string)
  (r : proc_result) (w1 w2 wk wk' : World) :
  let name := project_name (self st) in
  let x := create_project env st in
  dependencies (self st) = pre ++ d :: post ->
  spawn env version_argv None (world st) = (Exited 0, w1) ->
  spawn env (new_argv (self st)) None w1 = (Exited 0, w2) ->
  all_added env (Some name) pre w2 = Some wk ->
  spawn env (add_argv d) (Some name) wk = (r, wk') ->
  r <> Exited 0 ->
  store_of x = mkStore (set_path (self st) (Some name)) wk'
  /\ project_path (self (store_of x)) = Some name
  /\ (forall rc, r = Exited rc ->
        result_of x = Return tt
        /\ filter is_print (events_of x)
           = [EvPrint (add_msg env (CalledProcessError rc (add_argv d)))])
  /\ ((forall rc, r <> Exited rc) ->
        result_of x = check_true (add_argv d) r
        /\ returned (result_of x) = false
        /\ filter is_print (events_of x) = []).
Proof.
  intros name x Hd Hv Hn Hpre Hsp Hr.
  set (st2 := mkStore (set_path (self st) (Some name)) w2).
  pose proof (add_dependencies_stops env st2 pre d post r wk wk' Hd Hpre Hsp Hr)
    as Hadd.
  assert (Hf : forall l, filter is_print (map (added (Some name)) l) = []).
  { induction l as [|a l IH]; simpl; [reflexivity | exact IH]. }
  unfold x. rewrite (create_project_init_ok env st w1 w2 Hv Hn).
  fold name. fold st2. rewrite Hadd.
  unfold after, store_of, result_of, events_of. cbn [fst snd self project_path st2].
  split; [reflexivity|]. split; [reflexivity|]. split.
  - intros rc ->. split; [reflexivity|]. simpl. rewrite filter_app, Hf. reflexivity.
  - intros Hl. destruct r as [rc| |name']; [now elim (Hl rc)|..];
      (split; [reflexivity|]; split; [reflexivity|]);
      simpl; rewrite filter_app, Hf; reflexivity.
Qed.

Lemma create_project_dependency_failure_witness :
  let st := Sim.start (__init__ "demo" (Some "lib") (Some ["serde"; "bogus"; "rand"]))
              Sim.fresh in
  let x := create_project Sim.sim_env st in
  project_path (self (store_of x)) = Some "demo"%string
  /\ result_of x = Return tt
  /\ filter is_print (events_of x)
     = [EvPrint (add_msg Sim.sim_env
                   (CalledProcessError 101 ["cargo"; "add"; "bogus"]))].
Proof.
  intros st x.
  destruct (create_project_dependency_failure Sim.sim_env st
              ["serde"] "bogus" ["rand"] (Exited 101) Sim.fresh
              (snd (Sim.cargo_new "--lib" "demo" Sim.fresh))
              (world (store_of x)) (world (store_of x))
              eq_refl eq_refl eq_refl eq_refl eq_refl ltac:(discriminate))
    as (_ & Hp & He & _).
  destruct (He 101%Z eq_refl) as [Hres Hpr].
  split; [exact Hp|]. split; [exact Hres | exact Hpr].
Defined.

(** X6. Whatever the toolchain answers, the commands [create_project]
    runs are a prefix, at least the probe, of the sequence: the probe,
    [cargo new] with the flag of the kind and the name, then one
    [cargo add] per dependency in list order inside the directory named
    after the project; no command is run twice and [create_project]
    touches no file itself. *)
Theorem create_project_runs_a_prefix {World : Type} (env : Env World)
  (st : store World) :
  (exists n : nat,
     1 <= n
     /\ commands (events_of (create_project env st))
        = firstn n (create_plan (self st)))
  /\ existsb is_fs (events_of (create_project env st)) = false.
Proof.
  split; [apply create_project_commands | apply create_project_no_fs].
Qed.

(** X7. When the version query is launched and fails other than by a
    missing executable (an exit status other than zero, another launch
    error), the exception leaves [create_project], and [build_and_run] on
    a created project, uncaught: nothing is printed, no further command is
    run and the instance is as it was. *)
Theorem probe_failure_propagates {World : Type} (env : Env World)
  (st : store World) (r : proc_result) (w : World) :
  spawn env version_argv None (world st) = (r, w) ->
  r <> Exited 0 ->
  r <> NoSuchFile ->
  returned (check_true version_argv r) = false
  /\ create_project env st
     = (check_true version_argv r, mkStore (self st) w,
        [EvRun version_argv None r])
  /\ (project_path (self st) <> None ->
      build_and_run env st
      = (check_true version_argv r, mkStore (self st) w,
         [EvRun version_argv None r])).
Proof.
  intros Hv Hr Hn. split; [|split].
  - destruct r as [rc| |name]; try reflexivity.
    simpl. destruct (Z.eqb_spec rc 0) as [->|]; [congruence | reflexivity].
  - rewrite (create_project_no_toolchain env st r w Hv Hr).
    destruct r as [rc| |name]; [|congruence|reflexivity].
    simpl. destruct (Z.eqb_spec rc 0) as [->|]; [congruence | reflexivity].
  - intros Hp. destruct (project_path (self st)) as [path|] eqn:E; [|congruence].
    rewrite (build_and_run_no_toolchain env path st r w E Hv Hr).
    destruct r as [rc| |name]; [|congruence|reflexivity].
    simpl. destruct (Z.eqb_spec rc 0) as [->|]; [congruence | reflexivity].
Qed.

(** X8. When the probe is accepted and [cargo new] cannot be launched,
    the exception leaves [create_project] uncaught: no diagnostic is
    printed, no [cargo add] is run and the instance is as it was. *)
Theorem init_launch_failure_propagates {World : Type} (env : Env World)
  (st : store World) (r : proc_result) (w1 w2 : World) :
  spawn env version_argv None (world st) = (Exited 0, w1) ->
  spawn env (new_argv (self st)) None w1 = (r, w2) ->
  (forall rc, r <> Exited rc) ->
  returned (check_true (new_argv (self st)) r) = false
  /\ create_project env st
     = (check_true (new_argv (self st)) r, mkStore (self st) w2,
        [EvRun version_argv None (Exited 0); EvRun (new_argv (self st)) None r]).
Proof.
  intros Hv Hn Hr. split.
  - destruct r as [rc| |name]; [now elim (Hr rc) | reflexivity | reflexivity].
  - exact (create_project_init_not_launched env st w1 w2 r Hv Hn Hr).
Qed.

Lemma probe_failure_propagates_witness :
  let st := mkStore (mkRustProject "demo" "bin" (Some "demo") []) [Exited 1] in
  create_project Script.script_env st
  = (Raise (CalledProcessError 1 ["cargo"; "--version"]),
     mkStore (self st) [], [EvRun ["cargo"; "--version"] None (Exited 1)])
  /\ build_and_run Script.script_env st
     = (Raise (CalledProcessError 1 ["cargo"; "--version"]),
        mkStore (self st) [], [EvRun ["cargo"; "--version"] None (Exited 1)]).
Proof.
  intros st.
  destruct (probe_failure_propagates Script.script_env st (Exited 1) []
              eq_refl ltac:(discriminate) ltac:(discriminate))
    as (_ & Hc & Hb).
  split; [exact Hc | exact (Hb ltac:(discriminate))].
Defined.

Lemma init_launch_failure_propagates_witness :
  let st := mkStore (__init__ "demo" None (Some ["serde"]))
              [Exited 0; LaunchError "PermissionError"] in
  create_project Script.script_env st
  = (Raise (OtherError "PermissionError"), mkStore (self st) [],
     [EvRun ["cargo"; "--version"] None (Exited 0);
      EvRun ["cargo"; "new"; "--lib"; "demo"] None (LaunchError "PermissionError")]).
Proof.
  intros st.
  exact (proj2 (init_launch_failure_propagates Script.script_env st
                  (LaunchError "PermissionError")
                  [LaunchError "PermissionError"] []
                  eq_refl eq_refl ltac:(discriminate))).
Defined.

(** X9. With a path recorded and the probe accepted, [build_and_run]
    runs [cargo run] once in the project directory.  An exit status other
    than zero is printed as a diagnostic that contains the text of the
    error, and the method returns as after a successful run: the caller
    cannot tell the two apart by the result.  A launch error reaches the
    caller.  The instance is as it was in every case. *)
Theorem build_and_run_outcomes {World : Type} (env : Env World)
  (st : store World) (path : string) (r : proc_result) (w1 w2 : World) :
  let x := build_and_run env st in
  project_path (self st) = Some path ->
  spawn env version_argv None (world st) = (Exited 0, w1) ->
  spawn env run_argv (Some path) w1 = (r, w2) ->
  store_of x = mkStore (self st) w2
  /\ commands (events_of x) = [(version_argv, None); (run_argv, Some path)]
  /\ (r = Exited 0 ->
      result_of x = Return tt /\ existsb is_print (events_of x) = false)
  /\ (forall rc, r = Exited rc -> rc <> 0%Z ->
        result_of x = Return tt
        /\ filter is_print (events_of x)
           = [EvPrint (run_msg env (CalledProcessError rc run_argv))]
        /\ Contains (py_str env (CalledProcessError rc run_argv))
                    (run_msg env (CalledProcessError rc run_argv)))
  /\ ((forall rc, r <> Exited rc) ->
        result_of x = check_true run_argv r
        /\ returned (result_of x) = false
        /\ existsb is_print (events_of x) = false).
Proof.
  intros x Hp Hv Hr. unfold x.
  rewrite (build_and_run_toolchain env path st r w1 w2 Hp Hv Hr).
  unfold store_of, result_of, events_of. cbn [fst snd].
  split; [reflexivity|]. split.
  { destruct r as [rc| |name]; try reflexivity.
    destruct (Z.eqb rc 0); reflexivity. }
  split; [intros ->; split; reflexivity|]. split.
  - intros rc -> Hrc. destruct (Z.eqb_spec rc 0); [contradiction|].
    split; [reflexivity|]. split; [reflexivity|].
    exists "Error running Rust code: "%string, EmptyString.
    unfold run_msg. now rewrite append_empty_r.
  - intros Hl. destruct r as [rc| |name]; [now elim (Hl rc)|..];
      repeat split; reflexivity.
Qed.

Lemma build_and_run_outcomes_witness :
  let st := mkStore (mkRustProject "demo" "bin" (Some "demo") [])
              [Exited 0; Exited 101] in
  let x := build_and_run Script.script_env st in
  result_of x = Return tt
  /\ filter is_print (events_of x)
     = [EvPrint "Error running Rust code: Command 'cargo run' returned non-zero exit status."].
Proof.
  intros st x.
  destruct (build_and_run_outcomes Script.script_env st "demo" (Exited 101)
              [Exited 101] [] eq_refl eq_refl eq_refl) as (_ & _ & _ & He & _).
  destruct (He 101%Z eq_refl ltac:(discriminate)) as (Hres & Hpr & _).
  split; [exact Hres | exact Hpr].
Defined.

Lemma build_and_run_probes_first {World : Type} (env : Env World)
  (st : store World) :
  project_path (self st) <> None ->
  exists tail : list (list string * option string),
    commands (events_of (build_and_run env st)) = (version_argv, None) :: tail.
Proof.
  intros Hp. destruct (project_path (self st)) as [path|] eqn:E; [|congruence].
  destruct (spawn env version_argv None (world st)) as [r w1] eqn:Hv.
  destruct (trichotomy r) as [-> | Hr].
  - destruct (spawn env run_argv (Some path) w1) as [r2 w2] eqn:Hn.
    rewrite (build_and_run_toolchain env _ _ _ _ _ E Hv Hn).
    eexists. reflexivity.
  - rewrite (build_and_run_no_toolchain env _ _ _ _ E Hv Hr).
    destruct r; eexists; reflexivity.
Qed.

(** X10. Whatever the toolchain answers, the commands [build_and_run]
    runs are a prefix of the probe followed by [cargo run] in the project
    directory: none with the path unset, and with a path the probe first,
    anew at every call.  [build_and_run] touches no file itself and leaves
    the instance as it was. *)
Theorem build_and_run_runs_a_prefix {World : Type} (env : Env World)
  (st : store World) :
  (exists n : nat,
     commands (events_of (build_and_run env st)) = firstn n (run_plan (self st)))
  /\ (project_path (self st) = None ->
      commands (events_of (build_and_run env st)) = [])
  /\ (project_path (self st) <> None ->
      exists tail : list (list string * option string),
        commands (events_of (build_and_run env st)) = (version_argv, None) :: tail)
  /\ existsb is_fs (events_of (build_and_run env st)) = false
  /\ self (store_of (build_and_run env st)) = self st.
Proof.
  split; [apply build_and_run_commands|]. split.
  - intros Hp. now rewrite (build_and_run_unset env st Hp).
  - split; [apply build_and_run_probes_first|].
    split; [apply build_and_run_no_fs | apply build_and_run_self].
Qed.

(** X11. When [shutil.rmtree] raises, the exception leaves [cleanup]
    uncaught and [project_path] stays set: the instance still counts as
    created, and the next [cleanup] tries the same removal again. *)
Theorem cleanup_failure_keeps_path {World : Type} (env : Env World)
  (st : store World) (path : string) (e : exn) (w : World) :
  let x := cleanup env st in
  project_path (self st) = Some path ->
  rmtree env path (world st) = (Some e, w) ->
  x = (Raise e, mkStore (self st) w, [EvRmtree path (Some e)])
  /\ project_path (self (store_of x)) = Some path
  /\ (forall (r : option exn) (w' : World),
        rmtree env path w = (r, w') ->
        events_of (cleanup env (store_of x)) = [EvRmtree path r]).
Proof.
  intros x Hp Hr.
  assert (Hx : x = (Raise e, mkStore (self st) w, [EvRmtree path (Some e)]))
    by exact (cleanup_set env path st (Some e) w Hp Hr).
  split; [exact Hx|]. rewrite Hx. unfold store_of. cbn [fst snd self].
  split; [exact Hp|].
  intros r w' Hr'.
  now rewrite (cleanup_set env path (mkStore (self st) w) r w' Hp Hr').
Qed.

Lemma cleanup_failure_keeps_path_witness :
  let st := mkStore (mkRustProject "demo" "lib" (Some "demo") []) [] in
  cleanup Script.script_env st
  = (Raise Script.refuse, st, [EvRmtree "demo" (Some Script.refuse)])
  /\ events_of (cleanup Script.script_env
                  (store_of (cleanup Script.script_env st)))
     = [EvRmtree "demo" (Some Script.refuse)].
Proof.
  intros st.
  destruct (cleanup_failure_keeps_path Script.script_env st "demo" Script.refuse []
              eq_refl eq_refl) as (Hx & _ & Hagain).
  split; [exact Hx | exact (Hagain (Some Script.refuse) [] eq_refl)].
Defined.

(** X12. A [cleanup] that returned leaves nothing for the next one to
    do: called again, it makes no external call and changes nothing. *)
Theorem cleanup_twice {World : Type} (env : Env World) (st : store World) :
  let st1 := store_of (cleanup env st) in
  returned (result_of (cleanup env st)) = true ->
  cleanup env st1 = (Return tt, st1, []).
Proof.
  intros st1 Hret. apply cleanup_unset. unfold st1.
  rewrite cleanup_self, Hret. reflexivity.
Qed.

Lemma cleanup_twice_witness :
  let st0 := Sim.start (__init__ "demo" None None) Sim.fresh in
  let st := store_of (create_project Sim.sim_env st0) in
  let st1 := store_of (cleanup Sim.sim_env st) in
  events_of (cleanup Sim.sim_env st) = [EvRmtree "demo" None]
  /\ cleanup Sim.sim_env st1 = (Return tt, st1, []).
Proof.
  intros st0 st st1.
  split; [reflexivity | exact (cleanup_twice Sim.sim_env st eq_refl)].
Defined.

(** X13. No sequence of calls of the methods changes the name, the kind
    or the dependency list an instance was constructed with; so the
    [cargo new] command line and the source file name are the same
    throughout the life of an instance. *)
Theorem given_arguments_never_change {World : Type} (env : Env World)
  (ops : list op) (st : store World) (created : bool) :
  let s' := self (fst (run_ops env ops st created)) in
  same_given s' (self st)
  /\ new_argv s' = new_argv (self st)
  /\ src_file_name s' = src_file_name (self st).
Proof.
  intros s'.
  assert (H : same_given s' (self st)) by apply run_ops_same_given.
  split; [exact H|]. destruct H as (Hn & Ht & _).
  unfold new_argv, project_type_flag, src_file_name. rewrite Hn, Ht.
  split; reflexivity.
Qed.

(** X14. On an instance without a path, a [create_project] whose
    initialization subcommand succeeded followed by a [cleanup] that
    returned gives back the instance exactly as it was: the same object
    can go through a new cycle. *)
Theorem create_then_cleanup_restores {World : Type} (env : Env World)
  (st0 : store World) :
  let st1 := store_of (create_project env st0) in
  let st2 := store_of (cleanup env st1) in
  project_path (self st0) = None ->
  init_succeeded (events_of (create_project env st0)) = true ->
  returned (result_of (cleanup env st1)) = true ->
  self st2 = self st0.
Proof.
  intros st1 st2 Hp Hinit Hret. unfold st2.
  rewrite cleanup_self, Hret. unfold st1.
  rewrite create_project_self, Hinit. now apply set_path_back.
Qed.

Lemma create_then_cleanup_restores_witness :
  let st0 := Sim.start (__init__ "demo" (Some "bin") (Some ["serde"])) Sim.fresh in
  self (store_of (cleanup Sim.sim_env (store_of (create_project Sim.sim_env st0))))
  = self st0.
Proof.
  intros st0.
  exact (create_then_cleanup_restores Sim.sim_env st0 eq_refl eq_refl eq_refl).
Defined.

(** X15. The methods keep to their kinds of call, in every state:
    [_check_cargo_installed], [_add_dependencies], [create_project] and
    [build_and_run] touch no file; [write_code] and [cleanup] launch
    nothing; [write_code] removes nothing; [cleanup] writes nothing and
    prints nothing. *)
Theorem calls_by_method {World : Type} (env : Env World) (st : store World)
  (rust_code : string) :
  existsb is_fs (events_of (_check_cargo_installed env st)) = false
  /\ existsb is_fs (events_of (_add_dependencies env st)) = false
  /\ existsb is_fs (events_of (create_project env st)) = false
  /\ existsb is_fs (events_of (build_and_run env st)) = false
  /\ existsb is_run (events_of (write_code env rust_code st)) = false
  /\ existsb is_rmtree (events_of (write_code env rust_code st)) = false
  /\ existsb is_run (events_of (cleanup env st)) = false
  /\ existsb is_write (events_of (cleanup env st)) = false
  /\ existsb is_print (events_of (cleanup env st)) = false.
Proof.
  split; [apply check_cargo_no_fs|]. split; [apply add_dependencies_no_fs|].
  split; [apply create_project_no_fs|]. split; [apply build_and_run_no_fs|].
  split; [apply write_code_calls|]. split; [apply write_code_calls|].
  apply cleanup_calls.
Qed.

(** X16. With a path recorded, two calls of [write_code] write to the
    same file, and when both writes succeed the file holds the text of
    the second call: nothing of the first is kept. *)
Theorem write_code_last_write_wins {World : Type} (env : Env World)
  (st : store World) (path first second : string) (w1 w2 : World) :
  let file := src_file_path (self st) path in
  let st1 := store_of (write_code env first st) in
  let st2 := store_of (write_code env second st1) in
  project_path (self st) = Some path ->
  write_text env file first (world st) = (None, w1) ->
  write_text env file second w1 = (None, w2) ->
  FsLaws env ->
  events_of (write_code env first st) = [EvWrite file first None]
  /\ events_of (write_code env second st1) = [EvWrite file second None]
  /\ self st2 = self st
  /\ read_text env (world st2) file = Some second.
Proof.
  intros file st1 st2 Hp H1 H2 Laws.
  assert (E1 : write_code env first st
               = (Return tt, mkStore (self st) w1, [EvWrite file first None]))
    by exact (write_code_set env first path st None w1 Hp H1).
  assert (Hst1 : st1 = mkStore (self st) w1) by (unfold st1; now rewrite E1).
  assert (E2 : write_code env second st1
               = (Return tt, mkStore (self st) w2, [EvWrite file second None])).
  { rewrite Hst1.
    exact (write_code_set env second path (mkStore (self st) w1) None w2 Hp H2). }
  assert (Hst2 : st2 = mkStore (self st) w2) by (unfold st2; now rewrite E2).
  split; [now rewrite E1|]. split; [now rewrite E2|]. rewrite Hst2.
  split; [reflexivity|]. exact (write_then_read env Laws _ _ _ _ H2).
Qed.

Lemma write_code_last_write_wins_witness :
  let st0 := Sim.start (__init__ "demo" (Some "bin") None) Sim.fresh in
  let st := store_of (create_project Sim.sim_env st0) in
  let st1 := store_of (write_code Sim.sim_env "fn main() { one() }" st) in
  let st2 := store_of (write_code Sim.sim_env "fn main() {}" st1) in
  Sim.sim_read_text (world st1) "demo/src/main.rs" = Some "fn main() { one() }"%string
  /\ Sim.sim_read_text (world st2) "demo/src/main.rs" = Some "fn main() {}"%string.
Proof.
  intros st0 st st1 st2. split; [reflexivity|].
  exact (proj2 (proj2 (proj2
    (write_code_last_write_wins Sim.sim_env st "demo"
       "fn main() { one() }" "fn main() {}" (world st1) (world st2)
       eq_refl eq_refl eq_refl sim_fs_laws)))).
Defined.

(** X17. When opening or writing the source file raises, the exception
    leaves [write_code] uncaught and no diagnostic is printed; the
    instance keeps its path, so the next [write_code] tries the same
    file. *)
Theorem write_failure_propagates {World : Type} (env : Env World)
  (st : store World) (path rust_code : string) (e : exn) (w : World) :
  let file := src_file_path (self st) path in
  let x := write_code env rust_code st in
  project_path (self st) = Some path ->
  write_text env file rust_code (world st) = (Some e, w) ->
  x = (Raise e, mkStore (self st) w, [EvWrite file rust_code (Some e)])
  /\ project_path (self (store_of x)) = Some path
  /\ (forall (again : string) (r : option exn) (w' : World),
        write_text env file again w = (r, w') ->
        events_of (write_code env again (store_of x)) = [EvWrite file again r]).
Proof.
  intros file x Hp Hw.
  assert (Hx : x = (Raise e, mkStore (self st) w, [EvWrite file rust_code (Some e)]))
    by exact (write_code_set env rust_code path st (Some e) w Hp Hw).
  split; [exact Hx|]. rewrite Hx. unfold store_of. cbn [fst snd self].
  split; [exact Hp|]. intros again r w' Hw'.
  now rewrite (write_code_set env again path (mkStore (self st) w) r w' Hp Hw').
Qed.

Lemma write_failure_propagates_witness :
  let st := mkStore (mkRustProject "demo" "lib" (Some "demo") []) [] in
  write_code Script.script_env "pub fn f() {}" st
  = (Raise Script.refuse, st,
     [EvWrite "demo/src/lib.rs" "pub fn f() {}" (Some Script.refuse)]).
Proof.
  intros st.
  exact (proj1 (write_failure_propagates Script.script_env st "demo"
                  "pub fn f() {}" Script.refuse [] eq_refl eq_refl)).
Defined.

(** X18. Whatever the project path, the file [write_code] names is the
    source file name directly inside a directory [src]: below the path
    with one separator added when the path is not empty and does not end
    in one, below the path as it is when it ends in a separator, and
    relative to the working directory when the path is empty. *)
Theorem src_file_path_shape (s : RustProject) (path : string) :
  (exists dir : string,
     src_file_path s path = (dir ++ "src/" ++ src_file_name s)%string
     /\ (dir = path \/ dir = (path ++ "/")%string))
  /\ (path = EmptyString ->
      src_file_path s path = ("src/" ++ src_file_name s)%string)
  /\ (endswith_sep path = true ->
      src_file_path s path = (path ++ "src/" ++ src_file_name s)%string)
  /\ (path <> EmptyString -> endswith_sep path = false ->
      src_file_path s path = (path ++ "/src/" ++ src_file_name s)%string).
Proof.
  assert (Hstep : forall dir : string,
            join_step (dir ++ "src") (src_file_name s)
            = (dir ++ "src/" ++ src_file_name s)%string).
  { intros dir. unfold join_step.
    assert (Hs : startswith_sep (src_file_name s) = false)
      by (unfold src_file_name; destruct (String.eqb _ _); reflexivity).
    assert (He : endswith_sep (dir ++ "src") = false)
      by (rewrite endswith_sep_app; [reflexivity | discriminate]).
    assert (Hn : String.eqb (dir ++ "src") EmptyString = false).
    { destruct (String.eqb_spec (dir ++ "src")%string EmptyString) as [E|];
        [|reflexivity].
      destruct dir; simpl in E; discriminate. }
    rewrite Hs, He, Hn. simpl. rewrite append_assoc. reflexivity. }
  assert (Hplain : String.eqb path EmptyString = true \/ endswith_sep path = true ->
            src_file_path s path = (path ++ "src/" ++ src_file_name s)%string).
  { intros H. unfold src_file_path, os_path_join. simpl.
    assert (Hj : join_step path "src" = (path ++ "src")%string).
    { unfold join_step. simpl.
      destruct H as [-> | ->]; [reflexivity | now rewrite orb_true_r]. }
    rewrite Hj. apply Hstep. }
  split; [|split; [|split]].
  - destruct (String.eqb path EmptyString) eqn:E1.
    + exists path. split; [apply Hplain; now left | now left].
    + destruct (endswith_sep path) eqn:E2.
      * exists path. split; [apply Hplain; now right | now left].
      * exists (path ++ "/")%string. split; [|now right].
        rewrite append_assoc. simpl.
        apply src_file_path_plain; [|exact E2].
        intros ->. discriminate E1.
  - intros ->. exact (Hplain (or_introl eq_refl)).
  - intros H. exact (Hplain (or_intror H)).
  - apply src_file_path_plain.
Qed.
